(** * Flight-safety core of the drone surveillance system

  A shallow embedding of [src/geofence/geofence_manager.py] and of the
  command and monitoring paths of [src/drone_control/drone_controller.py].

  Python floats are idealised as real numbers ([R]); [float('inf')] is the
  extra element [PInf] of [ExtR].  The planar predicates that the manager
  obtains from the shapely library ([contains], [nearest_points]) are the
  fields of the class [Planar]; a concrete instance for polygon rings is
  given in [RingModel] and used to run the code on explicit inputs. *)

From Stdlib Require Import Reals Lra List String Bool Arith Lia.
From Stdlib Require Import DecimalString.
Import ListNotations.
Open Scope R_scope.

(** ** Numbers *)

Definition Rltb (x y : R) : bool := if Rlt_dec x y then true else false.
Definition Rleb (x y : R) : bool := if Rle_dec x y then true else false.
Definition Reqb (x y : R) : bool := if Req_dec_T x y then true else false.

(** A float that may be [float('inf')]. *)
Inductive ExtR : Type :=
| Fin (r : R)
| PInf.

(** [d < m] for a finite [d]. *)
Definition ext_ltb (d : R) (m : ExtR) : bool :=
match m with
| PInf => true
| Fin r => Rltb d r
end.

(** [m * k] for a positive finite [k]. *)
Definition ext_scale (m : ExtR) (k : R) : ExtR :=
match m with
| PInf => PInf
| Fin r => Fin (r * k)
end.

(** ** The shapely operations on points and two-point lines *)

Module Shapely.

(** [Point(x, y)]: the manager always passes [x = longitude],
    [y = latitude]. *)
Definition Point : Type := (R * R)%type.
Definition px (p : Point) : R := fst p.
Definition py (p : Point) : R := snd p.

(** [p.distance(q)] between two points. *)
Definition distance (p q : Point) : R :=
  sqrt ((px p - px q) * (px p - px q) + (py p - py q) * (py p - py q)).

(** [LineString([a, b]).length]. *)
Definition line_length (a b : Point) : R := distance a b.

(** The point at fraction [t] of the way from [a] to [b]. *)
Definition along (a b : Point) (t : R) : Point :=
  (px a + t * (px b - px a), py a + t * (py b - py a)).

(** [LineString([a, b]).interpolate(d)]: the point at distance [d] from
    [a] along the line, clamped to the end points; a negative [d] is
    measured backwards from [b]. *)
Definition line_interpolate (a b : Point) (d : R) : Point :=
  let len := line_length a b in
  if Rleb len 0 then a
  else if Rltb d 0 then
    if Rleb (len + d) 0 then a else along a b ((len + d) / len)
  else
    if Rleb len d then b else along a b (d / len).

End Shapely.
Import Shapely.

(** The shapely predicates on area geometries that the manager calls.
    [Geometry] ranges over the non-empty geometries, the ones on which
    [nearest_points] returns a pair. *)
Class Planar : Type := {
  Geometry : Type;
  (** [g.contains(p)] *)
  contains : Geometry -> Point -> bool;
  (** [nearest_points(p, g)[1]] *)
  nearest_point : Point -> Geometry -> Point
}.

(** ** GeofenceManager *)

Module Geofence.
Section Defs.

Context {K : Planar}.

(** [boundary['type']], with the keys only circles carry. *)
Inductive BoundaryType : Type :=
| polygon
| circle (center_lat center_lon radius : R).

(** An entry of [self.boundaries]. *)
Record Boundary : Type := {
  b_type : BoundaryType;
  b_geometry : Geometry;
  b_name : string
}.

Record GeofenceManager : Type := {
  boundaries : list Boundary;
  max_altitude : R;
  min_altitude : R;
  buffer_distance : R
}.

Definition _meters_to_degrees (meters : R) : R := meters / 111111.

(** The loop [for boundary in self.boundaries: if
    boundary['geometry'].contains(point): return ...] shared by the three
    queries: [true] when the early return is taken. *)
Fixpoint contained_in_some (bs : list Boundary) (point : Point) : bool :=
  match bs with
  | [] => false
  | boundary :: rest =>
      if contains (b_geometry boundary) point then true
      else contained_in_some rest point
  end.

Definition is_point_inside (self : GeofenceManager)
    (latitude longitude : R) (altitude : option R) : bool :=
  let altitude_rejected :=
    match altitude with
    | Some alt => Rltb (max_altitude self) alt || Rltb alt (min_altitude self)
    | None => false
    end in
  if altitude_rejected then false
  else
    let point : Point := (longitude, latitude) in
    contained_in_some (boundaries self) point.

(** The three locals of the search loop of [get_nearest_safe_point]. *)
Record Nearest : Type := {
  nearest_boundary : option Boundary;
  min_distance : ExtR;
  nearest_safe_point : option Point
}.

Definition nearest_init : Nearest :=
  {| nearest_boundary := None; min_distance := PInf;
     nearest_safe_point := None |}.

Definition nearest_step (point : Point) (acc : Nearest) (boundary : Boundary)
    : Nearest :=
  let nearest_point_on_boundary := nearest_point point (b_geometry boundary) in
  let distance := distance point nearest_point_on_boundary in
  if ext_ltb distance (min_distance acc) then
    {| nearest_boundary := Some boundary; min_distance := Fin distance;
       nearest_safe_point := Some nearest_point_on_boundary |}
  else acc.

Definition nearest_search (bs : list Boundary) (point : Point) : Nearest :=
  fold_left (nearest_step point) bs nearest_init.

(** Returns [(latitude, longitude)]. *)
Definition get_nearest_safe_point (self : GeofenceManager)
    (latitude longitude : R) : R * R :=
  let point : Point := (longitude, latitude) in
  if contained_in_some (boundaries self) point then (latitude, longitude)
  else
    let found := nearest_search (boundaries self) point in
    match nearest_safe_point found, nearest_boundary found with
    | Some nsp, Some nb =>
        let boundary_point := (py nsp, px nsp) in
        match b_type nb with
        | circle center_lat center_lon _ =>
            let center_point : Point := (center_lon, center_lat) in
            let buffer_degrees := _meters_to_degrees (buffer_distance self) in
            if Rltb buffer_degrees (line_length nsp center_point) then
              let safe_point := line_interpolate nsp center_point buffer_degrees in
              (py safe_point, px safe_point)
            else boundary_point
        | polygon => boundary_point
        end
    | _, _ => (latitude, longitude)
    end.

Definition breach_step (point : Point) (min_distance_degrees : ExtR)
    (boundary : Boundary) : ExtR :=
  let nearest := nearest_point point (b_geometry boundary) in
  let distance_degrees := distance point nearest in
  if ext_ltb distance_degrees min_distance_degrees then Fin distance_degrees
  else min_distance_degrees.

Definition calculate_breach_distance (self : GeofenceManager)
    (latitude longitude : R) : ExtR :=
  let point : Point := (longitude, latitude) in
  if contained_in_some (boundaries self) point then Fin 0
  else
    ext_scale (fold_left (breach_step point) (boundaries self) PInf) 111111.

(** *** Vocabulary of the statements about the manager *)

(** The point lies within the geometry of at least one boundary. *)
Definition inside_some (bs : list Boundary) (point : Point) : Prop :=
  exists b, In b bs /\ contains (b_geometry b) point = true.

(** The distance from the point to a boundary, as both searches measure
    it: to the closest point of the boundary's geometry. *)
Definition boundary_distance (point : Point) (b : Boundary) : R :=
  distance point (nearest_point point (b_geometry b)).

(** [b] is the [i]-th boundary, no boundary is closer to the point, and
    every earlier boundary is strictly farther. *)
Definition first_nearest (bs : list Boundary) (point : Point)
    (i : nat) (b : Boundary) : Prop :=
  nth_error bs i = Some b
  /\ (forall b', In b' bs ->
        boundary_distance point b <= boundary_distance point b')
  /\ (forall j b', (j < i)%nat -> nth_error bs j = Some b' ->
        boundary_distance point b < boundary_distance point b').

(** [m] is the least of the distances [ds]; [PInf] when there is none. *)
Definition least_of (ds : list R) (m : ExtR) : Prop :=
  match m with
  | PInf => ds = []
  | Fin r => In r ds /\ forall d, In d ds -> r <= d
  end.


(** What the search of [get_nearest_safe_point] holds after a prefix
    [bs] of the boundaries. *)
Definition search_inv (bs : list Boundary) (point : Point) (acc : Nearest)
    : Prop :=
  (bs = [] /\ acc = nearest_init)
  \/ exists i b,
       first_nearest bs point i b
       /\ acc = {| nearest_boundary := Some b;
                   min_distance := Fin (boundary_distance point b);
                   nearest_safe_point :=
                     Some (nearest_point point (b_geometry b)) |}.

End Defs.
End Geofence.
Import Geofence.

(** ** A concrete planar kernel: polygons given by their outer ring

    [Polygon(shell)] without holes.  [contains] is shapely's: the interior
    only, a point on an edge is not contained.  [nearest_points] returns the
    point itself when the polygon covers it and the closest point of the
    ring otherwise. *)

Module RingModel.

Definition Ring : Type := list Point.
Definition Edge : Type := (Point * Point)%type.

Fixpoint edges_from (first : Point) (r : Ring) : list Edge :=
  match r with
  | [] => []
  | a :: rest =>
      match rest with
      | [] => [(a, first)]
      | b :: _ => (a, b) :: edges_from first rest
      end
  end.

Definition edges (r : Ring) : list Edge :=
  match r with
  | [] => []
  | first :: _ => edges_from first r
  end.

Definition between (lo x hi : R) : bool :=
  (Rleb lo x && Rleb x hi) || (Rleb hi x && Rleb x lo).

Definition cross (a b p : Point) : R :=
  (px b - px a) * (py p - py a) - (py b - py a) * (px p - px a).

Definition on_edge (p : Point) (e : Edge) : bool :=
  let (a, b) := e in
  Reqb (cross a b p) 0 && between (px a) (px p) (px b)
    && between (py a) (py p) (py b).

(** Does the horizontal ray from [p] towards larger [x] cross the edge? *)
Definition ray_crosses (p : Point) (e : Edge) : bool :=
  let (a, b) := e in
  xorb (Rltb (py p) (py a)) (Rltb (py p) (py b))
    && Rltb (px p)
         (px a + (py p - py a) * (px b - px a) / (py b - py a)).

Definition crossings (p : Point) (es : list Edge) : nat :=
  List.length (filter (ray_crosses p) es).

Definition ring_contains (r : Ring) (p : Point) : bool :=
  negb (existsb (on_edge p) (edges r)) && Nat.odd (crossings p (edges r)).

Definition dist2 (p q : Point) : R :=
  (px p - px q) * (px p - px q) + (py p - py q) * (py p - py q).

(** The point of the edge closest to [p]. *)
Definition project (p : Point) (e : Edge) : Point :=
  let (a, b) := e in
  let len2 := dist2 a b in
  if Rleb len2 0 then a
  else
    let t := ((px p - px a) * (px b - px a)
              + (py p - py a) * (py b - py a)) / len2 in
    if Rleb t 0 then a else if Rleb 1 t then b else along a b t.

Definition closer (p : Point) (best : Point) (e : Edge) : Point :=
  let c := project p e in
  if Rltb (dist2 p c) (dist2 p best) then c else best.

Definition ring_nearest (p : Point) (r : Ring) : Point :=
  if ring_contains r p then p
  else
    match edges r with
    | [] => p
    | e :: es => fold_left (closer p) es (project p e)
    end.

#[export] Instance ring_planar : Planar := {|
  Geometry := Ring;
  contains := ring_contains;
  nearest_point := ring_nearest
|}.

End RingModel.

(** ** DroneController *)

Module Drone.

Inductive DroneStatus : Type :=
| DISCONNECTED
| CONNECTED
| ARMED
| FLYING
| RETURNING
| LANDING
| ERROR.

Definition status_eqb (a b : DroneStatus) : bool :=
  match a, b with
  | DISCONNECTED, DISCONNECTED | CONNECTED, CONNECTED | ARMED, ARMED
  | FLYING, FLYING | RETURNING, RETURNING | LANDING, LANDING
  | ERROR, ERROR => true
  | _, _ => false
  end.

(** A raised [Exception], identified by its text. *)
Definition exn : Type := string.

(** What the controller writes to [self.vehicle]. *)
Inductive LinkCommand : Type :=
| SetMode (name : string)
| SetAirspeed (speed : R)
| SimpleGoto (lat lon alt : R).

(** [self.vehicle] as one monitoring iteration sees it: every attribute
    read gives a value or raises, and the vehicle decides which writes
    raise.  The battery level is dronekit's integer percentage. *)
Record Vehicle : Type := {
  mode_name : exn + string;
  armed : exn + bool;
  battery_level : exn + option Z;
  location : exn + (R * R * R);
  commands_next : exn + Z;
  refuses : LinkCommand -> option exn
}.

Inductive Level : Type := INFO | WARNING | LOG_ERROR.

Inductive Method : Type := m_return_to_home | m_move_to_coordinates.

(** What a run leaves behind, oldest first.  [Enter] marks the entry into
    a method and has no counterpart in the source. *)
Inductive Event : Type :=
| Enter (m : Method)
| Log (level : Level) (text : string)
| Link (c : LinkCommand)
| Timer (seconds : nat)
| Sleep (seconds : nat).

(** How a call ends. *)
Inductive Outcome (A : Type) : Type :=
| Ok (a : A)
| Raise (e : exn).
Arguments Ok {A} a.
Arguments Raise {A} e.

Section Defs.

Context {K : Planar}.

Record DroneController : Type := {
  simulation_mode : bool;
  geofence_manager : option GeofenceManager;
  max_altitude : R;
  return_airspeed : R;
  (** [config.get('critical_battery_level', 15)] *)
  critical_battery_level : Z;
  (** [config.get('low_battery_level', 30)] *)
  low_battery_level : Z;
  status : DroneStatus;
  vehicle : option Vehicle;
  running : bool;
  current_mission : option string;
  current_waypoint_index : Z;
  events : list Event
}.

Definition with_status (self : DroneController) (s : DroneStatus)
    : DroneController :=
  {| simulation_mode := simulation_mode self;
     geofence_manager := geofence_manager self;
     max_altitude := max_altitude self;
     return_airspeed := return_airspeed self;
     critical_battery_level := critical_battery_level self;
     low_battery_level := low_battery_level self;
     status := s;
     vehicle := vehicle self;
     running := running self;
     current_mission := current_mission self;
     current_waypoint_index := current_waypoint_index self;
     events := events self |}.

Definition with_waypoint (self : DroneController) (i : Z) : DroneController :=
  {| simulation_mode := simulation_mode self;
     geofence_manager := geofence_manager self;
     max_altitude := max_altitude self;
     return_airspeed := return_airspeed self;
     critical_battery_level := critical_battery_level self;
     low_battery_level := low_battery_level self;
     status := status self;
     vehicle := vehicle self;
     running := running self;
     current_mission := current_mission self;
     current_waypoint_index := i;
     events := events self |}.

Definition with_vehicle (self : DroneController) (v : option Vehicle)
    : DroneController :=
  {| simulation_mode := simulation_mode self;
     geofence_manager := geofence_manager self;
     max_altitude := max_altitude self;
     return_airspeed := return_airspeed self;
     critical_battery_level := critical_battery_level self;
     low_battery_level := low_battery_level self;
     status := status self;
     vehicle := v;
     running := running self;
     current_mission := current_mission self;
     current_waypoint_index := current_waypoint_index self;
     events := events self |}.

Definition with_events (self : DroneController) (es : list Event)
    : DroneController :=
  {| simulation_mode := simulation_mode self;
     geofence_manager := geofence_manager self;
     max_altitude := max_altitude self;
     return_airspeed := return_airspeed self;
     critical_battery_level := critical_battery_level self;
     low_battery_level := low_battery_level self;
     status := status self;
     vehicle := vehicle self;
     running := running self;
     current_mission := current_mission self;
     current_waypoint_index := current_waypoint_index self;
     events := es |}.

(** *** Methods as state transformers that may raise

    A raise keeps the mutations made before it, as in Python. *)

Definition M (A : Type) : Type :=
  DroneController -> Outcome A * DroneController.

Definition ret {A} (a : A) : M A := fun self => (Ok a, self).

Definition bind {A B} (m : M A) (k : A -> M B) : M B :=
  fun self =>
    match m self with
    | (Ok a, self') => k a self'
    | (Raise e, self') => (Raise e, self')
    end.

Definition raise {A} (e : exn) : M A := fun self => (Raise e, self).

(** [try: body / except Exception as e: handler(e)] *)
Definition try_except {A} (body : M A) (handler : exn -> M A) : M A :=
  fun self =>
    match body self with
    | (Ok a, self') => (Ok a, self')
    | (Raise e, self') => handler e self'
    end.

Definition get : M DroneController := fun self => (Ok self, self).

Definition emit (e : Event) : M unit :=
  fun self => (Ok tt, with_events self (events self ++ [e])).

Definition set_status (s : DroneStatus) : M unit :=
  fun self => (Ok tt, with_status self s).

Definition set_waypoint (i : Z) : M unit :=
  fun self => (Ok tt, with_waypoint self i).

End Defs.

Declare Scope drone_scope.
Delimit Scope drone_scope with drone.
Notation "x <- m ;; k" := (bind m (fun x => k))
  (at level 61, m at next level, right associativity) : drone_scope.
Notation "m ;; k" := (bind m (fun _ => k))
  (at level 61, right associativity) : drone_scope.

Local Open Scope drone_scope.
Local Open Scope string_scope.

Section Methods.

Context {K : Planar}.

Definition log (level : Level) (text : string) : M unit :=
  emit (Log level text).

(** A write to [self.vehicle]: the command goes out, and raises when the
    vehicle refuses it. *)
Definition link (v : Vehicle) (c : LinkCommand) : M unit :=
  emit (Link c) ;;
  match refuses v c with
  | Some e => raise e
  | None => ret tt
  end.

(** An attribute read of [self.vehicle]. *)
Definition read {A} (attribute : exn + A) : M A :=
  match attribute with
  | inl e => raise e
  | inr a => ret a
  end.

Definition return_to_home : M bool :=
  emit (Enter m_return_to_home) ;;
  self <- get ;;
  if simulation_mode self then
    log INFO "SIMULATION: Returning to home location" ;;
    set_status RETURNING ;;
    emit (Timer 10) ;;
    ret true
  else
    match vehicle self with
    | None =>
        log LOG_ERROR "Cannot return home: Not connected to drone" ;;
        ret false
    | Some v =>
        if negb (status_eqb (status self) FLYING) then
          log WARNING "Drone is not flying, cannot return home" ;;
          ret false
        else
          try_except
            (link v (SetAirspeed (return_airspeed self)) ;;
             log INFO "Returning to home location" ;;
             link v (SetMode "RTL") ;;
             set_status RETURNING ;;
             ret true)
            (fun e =>
               log LOG_ERROR "Return to home failed" ;;
               ret false)
    end.

(** The [location] argument of [move_to_coordinates]: a dict read with
    [get('latitude')] and [get('longitude')]. *)
Record Location : Type := {
  latitude : option R;
  longitude : option R
}.

(** The geofence check of [move_to_coordinates]: the coordinates to fly
    to. *)
Definition checked_target (lat lon : R) : M (R * R) :=
  self <- get ;;
  match geofence_manager self with
  | Some gm =>
      if negb (is_point_inside gm lat lon None) then
        log WARNING
          "Coordinates are outside geofence. Adjusting to nearest safe point." ;;
        ret (get_nearest_safe_point gm lat lon)
      else ret (lat, lon)
  | None => ret (lat, lon)
  end.

Definition move_to_coordinates (location_ : Location) (altitude : option R)
    : M bool :=
  emit (Enter m_move_to_coordinates) ;;
  self <- get ;;
  if simulation_mode self then
    log INFO "SIMULATION: Moving" ;;
    ret true
  else
    match vehicle self with
    | None =>
        log LOG_ERROR "Cannot move: Not connected to drone" ;;
        ret false
    | Some v =>
        if negb (status_eqb (status self) FLYING) then
          log WARNING "Drone is not flying, cannot move" ;;
          ret false
        else
          match latitude location_, longitude location_ with
          | Some lat, Some lon =>
              target <- checked_target lat lon ;;
              altitude <-
                match altitude with
                | None =>
                    here <- read (location v) ;;
                    ret (snd here)
                | Some alt =>
                    if Rltb (max_altitude self) alt then
                      log WARNING
                        "Requested altitude exceeds maximum. Using maximum altitude." ;;
                      ret (max_altitude self)
                    else ret alt
                end ;;
              try_except
                (log INFO "Moving" ;;
                 link v (SimpleGoto (fst target) (snd target) altitude) ;;
                 ret true)
                (fun e =>
                   log LOG_ERROR "Move to coordinates failed" ;;
                   ret false)
          | _, _ =>
              log LOG_ERROR "Cannot move: Invalid coordinates" ;;
              ret false
          end
    end.

(** Truth value of [self.current_mission]. *)
Definition mission_active (self : DroneController) : bool :=
  match current_mission self with
  | None => false
  | Some id => negb (String.eqb id "")
  end.

(** The [try] block of [_monitor_drone], one definition per commented
    part, for the vehicle [v] that [self.vehicle] is during the pass. *)

(** [# Check for mode changes] *)
Definition check_mode_changes (v : Vehicle) : M unit :=
  mode <- read (mode_name v) ;;
  self <- get ;;
  if String.eqb mode "LAND" && negb (status_eqb (status self) LANDING) then
    log INFO "Detected LAND mode change" ;;
    set_status LANDING
  else
    mode <- read (mode_name v) ;;
    if String.eqb mode "RTL" && negb (status_eqb (status self) RETURNING) then
      log INFO "Detected RTL mode change" ;;
      set_status RETURNING
    else ret tt.

(** [# Check if landed] *)
Definition check_landed (v : Vehicle) : M unit :=
  self <- get ;;
  if status_eqb (status self) LANDING then
    is_armed <- read (armed v) ;;
    if negb is_armed then
      log INFO "Drone has landed" ;;
      set_status CONNECTED
    else ret tt
  else ret tt.

(** [# Check mission progress if in AUTO mode] *)
Definition check_mission_progress (v : Vehicle) : M unit :=
  mode <- read (mode_name v) ;;
  self <- get ;;
  if String.eqb mode "AUTO" && mission_active self then
    next_waypoint <- read (commands_next v) ;;
    if negb (Z.eqb next_waypoint (current_waypoint_index self)) then
      set_waypoint next_waypoint ;;
      log INFO "Moving to waypoint"
    else ret tt
  else ret tt.

(** [# Battery monitoring] *)
Definition check_battery (v : Vehicle) : M unit :=
  level <- read (battery_level v) ;;
  match level with
  | Some _ =>
      level <- read (battery_level v) ;;
      match level with
      | Some battery_level =>
          self <- get ;;
          if Z.ltb battery_level (critical_battery_level self) then
            log WARNING "CRITICAL BATTERY LEVEL. Returning home." ;;
            _ <- return_to_home ;;
            ret tt
          else if Z.ltb battery_level (low_battery_level self) then
            log WARNING "LOW BATTERY LEVEL"
          else ret tt
      | None => raise "'<' not supported between 'NoneType' and 'int'"
      end
  | None => ret tt
  end.

(** [# Geofence checking] *)
Definition check_geofence (v : Vehicle) : M unit :=
  self <- get ;;
  match geofence_manager self with
  | Some gm =>
      if status_eqb (status self) FLYING then
        here <- read (location v) ;;
        let '(lat, lon, _) := here in
        if negb (is_point_inside gm lat lon None) then
          log WARNING "GEOFENCE BREACH DETECTED! Returning to safe area." ;;
          let safe := get_nearest_safe_point gm lat lon in
          _ <- move_to_coordinates
                 {| latitude := Some (fst safe); longitude := Some (snd safe) |}
                 None ;;
          ret tt
        else ret tt
      else ret tt
  | None => ret tt
  end.

Definition monitor_tick (v : Vehicle) : M unit :=
  check_mode_changes v ;;
  check_landed v ;;
  check_mission_progress v ;;
  check_battery v ;;
  check_geofence v ;;
  emit (Sleep 1).

(** The vehicle the next iteration sees: the other side of the link has
    moved on, the controller's own fields have not. *)
Definition observe (frame : Vehicle) : M unit :=
  fun self =>
    match vehicle self with
    | Some _ => (Ok tt, with_vehicle self (Some frame))
    | None => (Ok tt, self)
    end.

(** The [while self.running and self.vehicle] loop, run for as many
    iterations as there are frames.  The result tells whether the loop
    condition failed (the thread stopped) within these iterations. *)
Fixpoint monitor_loop (frames : list Vehicle) : M bool :=
  match frames with
  | [] => ret false
  | frame :: later =>
      observe frame ;;
      self <- get ;;
      match running self, vehicle self with
      | true, Some v =>
          try_except (monitor_tick v)
            (fun e =>
               log LOG_ERROR "Error in drone monitoring" ;;
               emit (Sleep 5)) ;;
          monitor_loop later
      | _, _ =>
          log INFO "Drone monitoring thread stopped" ;;
          ret true
      end
  end.

Definition _monitor_drone (frames : list Vehicle) : M bool :=
  log INFO "Starting drone monitoring thread" ;;
  monitor_loop frames.

(** *** Vocabulary of the statements about the controller *)

(** The new events of a run that started with the events [before]. *)
Definition added (before after : list Event) (new : list Event) : Prop :=
  after = (before ++ new)%list.

Definition is_call (m : Method) (e : Event) : bool :=
  match e, m with
  | Enter m_return_to_home, m_return_to_home => true
  | Enter m_move_to_coordinates, m_move_to_coordinates => true
  | _, _ => false
  end.

(** How many times the method was entered. *)
Definition calls (m : Method) (es : list Event) : nat :=
  List.length (filter (is_call m) es).

Definition is_rtl_command (e : Event) : bool :=
  match e with
  | Link (SetMode name) => String.eqb name "RTL"
  | _ => false
  end.

(** How many times [vehicle.mode = VehicleMode("RTL")] was executed. *)
Definition rtl_commands (es : list Event) : nat :=
  List.length (filter is_rtl_command es).

Definition is_link (e : Event) : bool :=
  match e with
  | Link _ => true
  | _ => false
  end.

(** The battery level drops below the threshold between two consecutive
    readings. *)
Fixpoint crossings_below (threshold : Z) (levels : list Z) : nat :=
  match levels with
  | a :: ((b :: _) as rest) =>
      (if Z.leb threshold a && Z.ltb b threshold then 1 else 0)
      + crossings_below threshold rest
  | _ => 0
  end.


(** Every run of [m] from a state where [P] holds ends, whether it
    returns or raises, in a state where [P] holds. *)
Definition keeps {A} (P : DroneController -> Prop) (m : M A) : Prop :=
  forall self, P self -> P (snd (m self)).


(** Every run of [m] returns a value: no exception leaves it. *)
Definition never_raises {A} (m : M A) : Prop :=
  forall self, exists a self', m self = (Ok a, self').

(** The coordinates [move_to_coordinates] flies to when asked for
    [(lat, lon)]. *)
Definition safe_target (self : DroneController) (lat lon : R) : R * R :=
  match geofence_manager self with
  | Some gm =>
      if is_point_inside gm lat lon None then (lat, lon)
      else get_nearest_safe_point gm lat lon
  | None => (lat, lon)
  end.

End Methods.

End Drone.

(** ** Inputs on which the code is run below *)

Module Inputs.
Import RingModel Drone.
Local Open Scope string_scope.

(** A square pad, as [_add_boundary] builds it from four corners (it
    closes the ring). *)
Definition pad : Ring := [(0, 0); (2, 0); (2, 2); (0, 2); (0, 0)].

Definition pad_boundary : Boundary :=
  {| b_type := polygon; b_geometry := pad; b_name := "Pad" |}.

Definition pad_fence : GeofenceManager :=
  {| boundaries := [pad_boundary];
     Geofence.max_altitude := 30; min_altitude := 2; buffer_distance := 5 |}.

Definition no_fence : GeofenceManager :=
  {| boundaries := [];
     Geofence.max_altitude := 30; min_altitude := 2; buffer_distance := 5 |}.

(** A vehicle that answers every read and accepts every write. *)
Definition healthy (mode : string) (level : Z) : Vehicle :=
  {| mode_name := inr mode;
     armed := inr true;
     battery_level := inr (Some level);
     location := inr (1, 1, 10);
     commands_next := inr 0%Z;
     refuses := fun _ => None |}.

(** A vehicle whose mode cannot be read. *)
Definition silent : Vehicle :=
  {| mode_name := inl "link lost";
     armed := inr true;
     battery_level := inr (Some 80%Z);
     location := inr (1, 1, 10);
     commands_next := inr 0%Z;
     refuses := fun _ => None |}.

Definition controller (simulation : bool) (fence : option GeofenceManager)
    (s : DroneStatus) (v : option Vehicle) : DroneController :=
  {| simulation_mode := simulation;
     geofence_manager := fence;
     Drone.max_altitude := 30;
     return_airspeed := 5;
     critical_battery_level := 15;
     low_battery_level := 30;
     status := s;
     vehicle := v;
     running := true;
     current_mission := None;
     current_waypoint_index := 0;
     events := [] |}.

(** Simulation mode before [connect()]. *)
Definition simulated_disconnected : DroneController :=
  controller true (Some pad_fence) DISCONNECTED None.

(** A real vehicle in flight inside the pad. *)
Definition flying : DroneController :=
  controller false (Some pad_fence) FLYING (Some (healthy "GUIDED" 80)).

(** A real vehicle in flight, no geofence attached. *)
Definition flying_unfenced : DroneController :=
  controller false None FLYING (Some (healthy "GUIDED" 80)).



Definition somewhere : Location :=
  {| latitude := Some 1; longitude := Some 3 |}.

End Inputs.

(** ** GeofenceManager: construction and administration *)

(** The shapely constructors the manager calls.  [Polygon(points)] raises
    on a ring it cannot build; the two buffers always return. *)
Class PlanarBuild (K : Planar) : Type := {
  (** [Polygon(points)] *)
  polygon_of : list Point -> Drone.exn + Geometry;
  (** [g.buffer(d)] *)
  buffer : Geometry -> R -> Geometry;
  (** [Point(x, y).buffer(r)] *)
  point_buffer : Point -> R -> Geometry
}.

Module GeofenceAdmin.
Import Drone.
Local Open Scope string_scope.
Local Open Scope list_scope.

Section Defs.

Context {K : Planar} {B : PlanarBuild K}.

(** A boundary dict of the configuration; [None] is a missing key. *)
Record BoundaryData : Type := {
  d_type : option string;
  d_coordinates : option (list Location);
  d_buffer : option R;
  d_name : option string;
  d_center : option Location;
  d_radius : option R
}.

(** What is found at [config['boundary_file']]. *)
Inductive BoundaryFile : Type :=
| NoFile
| Unreadable (e : exn)
| JsonList (data : list BoundaryData)
| JsonBoundaries (data : list BoundaryData)
| JsonBoundary (data : BoundaryData)
| JsonOther.

(** The [config] dict of [GeofenceManager.__init__]. *)
Record GeofenceConfig : Type := {
  c_max_altitude : option R;
  c_min_altitude : option R;
  c_buffer_distance : option R;
  c_boundaries : option (list BoundaryData);
  c_boundary_file : option BoundaryFile;
  c_default_center : option Location;
  c_default_radius : option R
}.

(** [d.get(key, default)] *)
Definition get_or {A} (default : A) (value : option A) : A :=
  match value with
  | Some a => a
  | None => default
  end.

(** [str(n)] for a list length. *)
Definition str (n : nat) : string := NilEmpty.string_of_uint (Nat.to_uint n).

Definition with_boundaries (self : GeofenceManager) (bs : list Boundary)
    : GeofenceManager :=
  {| boundaries := bs;
     Geofence.max_altitude := Geofence.max_altitude self;
     min_altitude := min_altitude self;
     buffer_distance := buffer_distance self |}.

(** [name or default] *)
Definition name_or (name : option string) (default : string) : string :=
  match name with
  | Some n => if String.eqb n "" then default else n
  | None => default
  end.

Definition _create_circular_boundary (self : GeofenceManager)
    (center_lat center_lon radius_meters : R) (name : option string)
    : GeofenceManager :=
  let radius_degrees := _meters_to_degrees radius_meters in
  let center_point : Point := (center_lon, center_lat) in
  let circle_ := point_buffer center_point radius_degrees in
  with_boundaries self
    (boundaries self
     ++ [{| b_type := circle center_lat center_lon radius_meters;
            b_geometry := circle_;
            b_name :=
              name_or name
                ("Circle_" ++ str (List.length (boundaries self)))%string |}]).

Definition point_eqb (p q : Point) : bool :=
  Reqb (px p) (px q) && Reqb (py p) (py q).

(** The coordinate tuples of a polygon, closed when the list is not. *)
Definition polygon_points (coordinates : list Location) : list Point :=
  let points :=
    map (fun point => (get_or 0 (longitude point), get_or 0 (latitude point)))
      coordinates in
  match points with
  | [] => points
  | first :: _ =>
      if negb (point_eqb first (last points first)) then points ++ [first]
      else points
  end.

(** [_add_boundary]: the manager afterwards, or the exception of
    [Polygon(...)], raised before anything is changed. *)
Definition _add_boundary (self : GeofenceManager) (boundary_data : BoundaryData)
    : exn + GeofenceManager :=
  let boundary_type := get_or "polygon" (d_type boundary_data) in
  let default_name :=
    ("Boundary_" ++ str (List.length (boundaries self)))%string in
  if String.eqb boundary_type "polygon" then
    let coordinates := get_or [] (d_coordinates boundary_data) in
    if Nat.leb 3 (List.length coordinates) then
      match polygon_of (polygon_points coordinates) with
      | inl e => inl e
      | inr polygon_ =>
          let polygon_ :=
            if Rltb 0 (get_or 0 (d_buffer boundary_data)) then
              buffer polygon_
                (_meters_to_degrees (get_or 0 (d_buffer boundary_data)))
            else polygon_ in
          inr (with_boundaries self
                 (boundaries self
                  ++ [{| b_type := polygon;
                         b_geometry := polygon_;
                         b_name := get_or default_name (d_name boundary_data) |}]))
      end
    else inr self
  else if String.eqb boundary_type "circle" then
    let center := get_or {| latitude := None; longitude := None |}
                    (d_center boundary_data) in
    let radius := get_or 100 (d_radius boundary_data) in
    inr (_create_circular_boundary self
           (get_or 0 (latitude center)) (get_or 0 (longitude center)) radius
           (Some (get_or default_name (d_name boundary_data))))
  else inr self.

(** [for boundary in data: self._add_boundary(boundary)]: the manager
    when the loop ends, and the exception that ended it early, if any. *)
Fixpoint add_each (self : GeofenceManager) (data : list BoundaryData)
    : option exn * GeofenceManager :=
  match data with
  | [] => (None, self)
  | boundary :: rest =>
      match _add_boundary self boundary with
      | inl e => (Some e, self)
      | inr self' => add_each self' rest
      end
  end.

(** [_load_boundaries] on a manager whose limits are set. *)
Definition _load_boundaries (config : GeofenceConfig) (self : GeofenceManager)
    : exn + GeofenceManager :=
  let loaded :=
    match c_boundaries config with
    | Some data => add_each self data
    | None =>
        match c_boundary_file config with
        | Some (JsonList data) | Some (JsonBoundaries data) =>
            (* an exception here is logged by the [except] of the branch *)
            (None, snd (add_each self data))
        | Some (JsonBoundary boundary) => (None, snd (add_each self [boundary]))
        | Some NoFile | Some (Unreadable _) | Some JsonOther | None =>
            (None, self)
        end
    end in
  match loaded with
  | (Some e, _) => inl e
  | (None, self) =>
      match boundaries self, c_default_center config with
      | [], Some center =>
          inr (_create_circular_boundary self
                 (get_or 0 (latitude center)) (get_or 0 (longitude center))
                 (get_or 100 (c_default_radius config)) None)
      | _, _ => inr self
      end
  end.

(** [GeofenceManager(config)] *)
Definition __init__ (config : GeofenceConfig) : exn + GeofenceManager :=
  _load_boundaries config
    {| boundaries := [];
       Geofence.max_altitude := get_or 30 (c_max_altitude config);
       min_altitude := get_or 2 (c_min_altitude config);
       buffer_distance := get_or 5 (c_buffer_distance config) |}.

Definition add_temporary_boundary (self : GeofenceManager)
    (boundary_data : BoundaryData) : bool * GeofenceManager :=
  match _add_boundary self boundary_data with
  | inr self' => (true, self')
  | inl e => (false, self)
  end.

(** The list without its first boundary of that name, if there is one. *)
Fixpoint pop_named (boundary_name : string) (bs : list Boundary)
    : option (list Boundary) :=
  match bs with
  | [] => None
  | boundary :: rest =>
      if String.eqb (b_name boundary) boundary_name then Some rest
      else
        match pop_named boundary_name rest with
        | Some rest' => Some (boundary :: rest')
        | None => None
        end
  end.

Definition remove_boundary (self : GeofenceManager) (boundary_name : string)
    : bool * GeofenceManager :=
  match pop_named boundary_name (boundaries self) with
  | Some bs => (true, with_boundaries self bs)
  | None => (false, self)
  end.

End Defs.
End GeofenceAdmin.

(** ** DroneController: connection, landing and missions *)

Module Lifecycle.
Import Drone.
Local Open Scope string_scope.
Local Open Scope list_scope.
Local Open Scope drone_scope.

(** What the controller does to [self.vehicle.commands]. *)
Inductive MissionOp : Type :=
| Clear
| Add (lat lon alt : R)
| Upload.

Section Defs.

Context {K : Planar}.

Definition with_running (self : DroneController) (r : bool) : DroneController :=
  {| simulation_mode := simulation_mode self;
     geofence_manager := geofence_manager self;
     max_altitude := max_altitude self;
     return_airspeed := return_airspeed self;
     critical_battery_level := critical_battery_level self;
     low_battery_level := low_battery_level self;
     status := status self;
     vehicle := vehicle self;
     running := r;
     current_mission := current_mission self;
     current_waypoint_index := current_waypoint_index self;
     events := events self |}.

Definition with_mission (self : DroneController) (id : option string)
    : DroneController :=
  {| simulation_mode := simulation_mode self;
     geofence_manager := geofence_manager self;
     max_altitude := max_altitude self;
     return_airspeed := return_airspeed self;
     critical_battery_level := critical_battery_level self;
     low_battery_level := low_battery_level self;
     status := status self;
     vehicle := vehicle self;
     running := running self;
     current_mission := id;
     current_waypoint_index := current_waypoint_index self;
     events := events self |}.

Definition is_flying (self : DroneController) : bool :=
  status_eqb (status self) FLYING || status_eqb (status self) RETURNING.

Definition land : M bool :=
  self <- get ;;
  if simulation_mode self then
    log INFO "SIMULATION: Landing drone" ;;
    set_status LANDING ;;
    emit (Timer 5) ;;
    ret true
  else
    match vehicle self with
    | None =>
        log LOG_ERROR "Cannot land: Not connected to drone" ;;
        ret false
    | Some v =>
        if negb (is_flying self) then
          log WARNING "Drone is not flying, cannot land" ;;
          ret false
        else
          try_except
            (log INFO "Landing drone" ;;
             link v (SetMode "LAND") ;;
             set_status LANDING ;;
             ret true)
            (fun e =>
               log LOG_ERROR "Landing failed" ;;
               ret false)
    end.

(** The callback of the timers started by [land] and [return_to_home]
    in simulation mode. *)
Definition _simulated_landing_complete : M unit :=
  log INFO "SIMULATION: Landing complete" ;;
  set_status CONNECTED.

(** The fields of the controller object besides those of
    [DroneController]; [mission_ops] lists the calls made on
    [self.vehicle.commands] and [closes] counts those of
    [self.vehicle.close()]. *)
Record Controller : Type := {
  core : DroneController;
  default_altitude : R;
  default_airspeed : R;
  home_location : option (R * R * R);
  monitoring_thread : bool;
  mission_ops : list MissionOp;
  closes : nat
}.

Definition with_core (c : Controller) (self : DroneController) : Controller :=
  {| core := self;
     default_altitude := default_altitude c;
     default_airspeed := default_airspeed c;
     home_location := home_location c;
     monitoring_thread := monitoring_thread c;
     mission_ops := mission_ops c;
     closes := closes c |}.

Definition F (A : Type) : Type := Controller -> Outcome A * Controller.

Definition retF {A} (a : A) : F A := fun c => (Ok a, c).

Definition bindF {A B} (m : F A) (k : A -> F B) : F B :=
  fun c =>
    match m c with
    | (Ok a, c') => k a c'
    | (Raise e, c') => (Raise e, c')
    end.

Definition try_exceptF {A} (body : F A) (handler : exn -> F A) : F A :=
  fun c =>
    match body c with
    | (Ok a, c') => (Ok a, c')
    | (Raise e, c') => handler e c'
    end.

Definition getF : F Controller := fun c => (Ok c, c).

(** A method of the core, run on the whole object. *)
Definition lift {A} (m : M A) : F A :=
  fun c =>
    match m (core c) with
    | (r, self') => (r, with_core c self')
    end.

Definition set_home (home : option (R * R * R)) : F unit :=
  fun c =>
    (Ok tt,
     {| core := core c;
        default_altitude := default_altitude c;
        default_airspeed := default_airspeed c;
        home_location := home;
        monitoring_thread := monitoring_thread c;
        mission_ops := mission_ops c;
        closes := closes c |}).

Definition start_thread : F unit :=
  fun c =>
    (Ok tt,
     {| core := core c;
        default_altitude := default_altitude c;
        default_airspeed := default_airspeed c;
        home_location := home_location c;
        monitoring_thread := true;
        mission_ops := mission_ops c;
        closes := closes c |}).

(** A call on [self.vehicle.commands]; [refused] tells which calls
    raise. *)
Definition mission_op (refused : MissionOp -> option exn) (op : MissionOp)
    : F unit :=
  fun c =>
    (match refused op with
     | Some e => Raise e
     | None => Ok tt
     end,
     {| core := core c;
        default_altitude := default_altitude c;
        default_airspeed := default_airspeed c;
        home_location := home_location c;
        monitoring_thread := monitoring_thread c;
        mission_ops := mission_ops c ++ [op];
        closes := closes c |}).

(** [self.vehicle.close()]; [refused] is the exception it raises, if
    any. *)
Definition close_vehicle (refused : option exn) : F unit :=
  fun c =>
    (match refused with
     | Some e => Raise e
     | None => Ok tt
     end,
     {| core := core c;
        default_altitude := default_altitude c;
        default_airspeed := default_airspeed c;
        home_location := home_location c;
        monitoring_thread := monitoring_thread c;
        mission_ops := mission_ops c;
        closes := S (closes c) |}).

Definition set_vehicle (v : option Vehicle) : M unit :=
  fun self => (Ok tt, with_vehicle self v).

Definition set_running (r : bool) : M unit :=
  fun self => (Ok tt, with_running self r).

Definition set_mission (id : option string) : M unit :=
  fun self => (Ok tt, with_mission self id).

End Defs.

Declare Scope flight_scope.
Delimit Scope flight_scope with flight.
Notation "x <- m ;; k" := (bindF m (fun x => k))
  (at level 61, m at next level, right associativity) : flight_scope.
Notation "m ;; k" := (bindF m (fun _ => k))
  (at level 61, right associativity) : flight_scope.

Section Methods.

Context {K : Planar}.

Definition _create_simulated_drone : F unit :=
  (lift (log INFO "Created simulated drone") ;;
   set_home (Some (37.7749, -122.4194, 0)))%flight.

(** [connect()]; [dial] is what dronekit's [connect(...)] does when it
    is called: the vehicle it returns or the exception it raises. *)
Definition connect (dial : exn + Vehicle) : F bool :=
  (c <- getF ;;
   if negb (status_eqb (status (core c)) DISCONNECTED) then
     lift (log WARNING "Already connected to drone") ;;
     retF true
   else if simulation_mode (core c) then
     lift (log INFO "Running in simulation mode - creating virtual drone") ;;
     _create_simulated_drone ;;
     lift (set_status CONNECTED) ;;
     retF true
   else
     try_exceptF
       (lift (log INFO "Connecting to drone") ;;
        v <- lift (read dial) ;;
        lift (set_vehicle (Some v)) ;;
        here <- lift (read (location v)) ;;
        set_home (Some here) ;;
        lift (log INFO "Connected to drone. Home location set") ;;
        lift (link v (SetAirspeed (default_airspeed c))) ;;
        lift (set_running true) ;;
        start_thread ;;
        lift (set_status CONNECTED) ;;
        retF true)
       (fun e =>
          lift (log LOG_ERROR "Failed to connect to drone") ;;
          lift (set_status ERROR) ;;
          retF false))%flight.

(** [disconnect()]; [close_refused] is the exception of
    [self.vehicle.close()], if it raises.  Joining the monitoring thread
    changes nothing here. *)
Definition disconnect (close_refused : option exn) : F unit :=
  (c <- getF ;;
   if status_eqb (status (core c)) DISCONNECTED then
     lift (log WARNING "Drone already disconnected")
   else
     lift (set_running false) ;;
     match vehicle (core c) with
     | Some _ =>
         close_vehicle close_refused ;;
         lift (set_vehicle None)
     | None => retF tt
     end ;;
     lift (set_status DISCONNECTED) ;;
     lift (log INFO "Disconnected from drone"))%flight.

(** A waypoint dict of a mission; both coordinates are present. *)
Record Waypoint : Type := {
  w_latitude : R;
  w_longitude : R;
  w_altitude : option R
}.

(** A mission dict of the configuration. *)
Inductive MissionData : Type :=
| NoKeys
| OtherKeys
| WithWaypoints (waypoints : list Waypoint).

(** [mission_data.get('waypoints', [])] when [mission_data] is true: a dict
    without keys counts as a missing mission. *)
Definition mission_found (mission_data : option MissionData)
    : option (list Waypoint) :=
  match mission_data with
  | Some (WithWaypoints waypoints) => Some waypoints
  | Some OtherKeys => Some []
  | Some NoKeys | None => None
  end.

(** The body of the waypoint loop of [load_mission]. *)
Definition add_waypoint (refused : MissionOp -> option exn)
    (waypoint : Waypoint) : F unit :=
  (c <- getF ;;
   let alt := GeofenceAdmin.get_or (default_altitude c) (w_altitude waypoint) in
   target <- lift (match geofence_manager (core c) with
                   | Some gm =>
                       if negb (is_point_inside gm (w_latitude waypoint)
                                  (w_longitude waypoint) None) then
                         (log WARNING
                            "Waypoint is outside geofence. Adjusting to nearest safe point." ;;
                          ret (get_nearest_safe_point gm (w_latitude waypoint)
                                 (w_longitude waypoint)))%drone
                       else ret (w_latitude waypoint, w_longitude waypoint)
                   | None => ret (w_latitude waypoint, w_longitude waypoint)
                   end) ;;
   mission_op refused (Add (fst target) (snd target) alt))%flight.

Fixpoint add_waypoints (refused : MissionOp -> option exn)
    (waypoints : list Waypoint) : F unit :=
  match waypoints with
  | [] => retF tt
  | waypoint :: rest =>
      (add_waypoint refused waypoint ;; add_waypoints refused rest)%flight
  end.

(** [load_mission(mission_id)]; [missions] is [config.get('missions',
    {})] and [refused] tells which calls on [vehicle.commands] raise. *)
Definition load_mission (missions : string -> option MissionData)
    (refused : MissionOp -> option exn) (mission_id : string) : F bool :=
  (c <- getF ;;
   if simulation_mode (core c) then
     lift (log INFO "SIMULATION: Loading mission") ;;
     retF true
   else
     match vehicle (core c) with
     | None =>
         lift (log LOG_ERROR "Cannot load mission: Not connected to drone") ;;
         retF false
     | Some v =>
         match mission_found (missions mission_id) with
         | None =>
             lift (log LOG_ERROR "Mission not found") ;;
             retF false
         | Some waypoints =>
             try_exceptF
               (mission_op refused Clear ;;
                add_waypoints refused waypoints ;;
                mission_op refused Upload ;;
                lift (log INFO "Starting mission") ;;
                lift (link v (SetMode "AUTO")) ;;
                lift (set_mission (Some mission_id)) ;;
                lift (set_waypoint 0) ;;
                retF true)
               (fun e =>
                  lift (log LOG_ERROR "Loading mission failed") ;;
                  retF false)
         end
     end)%flight.

End Methods.
End Lifecycle.

(** ** DroneSystem: reacting to detections *)

Module Coordinator.
Import Drone.
Local Open Scope string_scope.
Local Open Scope list_scope.
Local Open Scope drone_scope.

Section Defs.

Context {K : Planar}.

(** [config['emergency']] *)
Record EmergencyConfig : Type := {
  fire_inspection_altitude : R;
  tracking_altitude : R;
  investigation_altitude : R;
  threat_observation_altitude : R
}.

(** A detection event: [event['type']] and [event.get('location')]. *)
Record Detection : Type := {
  e_type : string;
  e_location : option Location
}.

(** [move_to_coordinates(None, altitude)]: the first use of the missing
    dict raises. *)
Definition move_to_nowhere : M bool :=
  emit (Enter m_move_to_coordinates) ;;
  self <- get ;;
  if simulation_mode self then
    raise "'NoneType' object has no attribute 'get'"
  else
    match vehicle self with
    | None =>
        log LOG_ERROR "Cannot move: Not connected to drone" ;;
        ret false
    | Some v =>
        if negb (status_eqb (status self) FLYING) then
          log WARNING "Drone is not flying, cannot move" ;;
          ret false
        else raise "'NoneType' object has no attribute 'get'"
    end.

(** [self.drone.move_to_coordinates(location, altitude=altitude)] *)
Definition move_to (location_ : option Location) (altitude : R) : M bool :=
  match location_ with
  | Some l => move_to_coordinates l (Some altitude)
  | None => move_to_nowhere
  end.

Definition handle_emergency (emergency : EmergencyConfig) (event : Detection)
    : M unit :=
  let event_type := e_type event in
  let location_ := e_location event in
  if String.eqb event_type "fire" then
    _ <- move_to location_ (fire_inspection_altitude emergency) ;; ret tt
  else if String.eqb event_type "break_in" then
    _ <- move_to location_ (tracking_altitude emergency) ;; ret tt
  else if String.eqb event_type "suspicious" then
    _ <- move_to location_ (investigation_altitude emergency) ;; ret tt
  else if String.eqb event_type "threat" then
    _ <- move_to location_ (threat_observation_altitude emergency) ;; ret tt
  else ret tt.

End Defs.
End Coordinator.

(** ** An idealised kernel with the constructors

    Polygons are rings as in [RingModel]; the buffer of a point is the
    exact disc and the buffer of a shape its exact dilation, where shapely
    approximates the arcs by segments.  Radii and buffer distances are
    meant positive. *)

Module IdealModel.
Import RingModel.
Local Open Scope string_scope.

Inductive Shape : Type :=
| Ring (r : RingModel.Ring)
| Buffered (s : Shape) (d : R)
| Disc (c : Point) (r : R).

Fixpoint shape_nearest (p : Point) (s : Shape) : Point :=
  match s with
  | Ring r => ring_nearest p r
  | Disc c r =>
      if Rleb (distance c p) r then p else along c p (r / distance c p)
  | Buffered s' d =>
      let q := shape_nearest p s' in
      if Rleb (distance q p) d then p else along q p (d / distance q p)
  end.

Fixpoint shape_contains (s : Shape) (p : Point) : bool :=
  match s with
  | Ring r => ring_contains r p
  | Disc c r => Rltb (distance c p) r
  | Buffered s' d =>
      shape_contains s' p || Rltb (distance (shape_nearest p s') p) d
  end.

(** [Polygon(points)] closes the ring and needs four coordinates. *)
Definition shape_polygon (points : list Point) : Drone.exn + Shape :=
  let closed :=
    match points with
    | [] => points
    | first :: _ =>
        if GeofenceAdmin.point_eqb first (last points first) then points
        else (points ++ [first])%list
    end in
  if Nat.leb 4 (List.length closed) then inr (Ring closed)
  else inl "A linearring requires at least 4 coordinates.".

#[export] Instance ideal_planar : Planar := {|
  Geometry := Shape;
  contains := shape_contains;
  nearest_point := shape_nearest
|}.

#[export] Instance ideal_build : PlanarBuild ideal_planar := {|
  polygon_of := shape_polygon;
  buffer := Buffered;
  point_buffer := Disc
|}.

End IdealModel.

(** ** More inputs *)

Module MoreInputs.
Import Drone GeofenceAdmin Lifecycle Coordinator Inputs.
Local Open Scope string_scope.
Local Open Scope list_scope.

(** An empty manager of the idealised kernel, with the default limits. *)
Definition bare : GeofenceManager (K := IdealModel.ideal_planar) :=
  {| boundaries := [];
     Geofence.max_altitude := 30; min_altitude := 2; buffer_distance := 5 |}.

Definition no_data : BoundaryData :=
  {| d_type := None; d_coordinates := None; d_buffer := None;
     d_name := None; d_center := None; d_radius := None |}.

(** [{'type': 'circle', 'name': 'Zone', 'center': {...}, 'radius': 50}] *)
Definition zone : BoundaryData :=
  {| d_type := Some "circle"; d_coordinates := None; d_buffer := None;
     d_name := Some "Zone";
     d_center := Some {| latitude := Some 1; longitude := Some 2 |};
     d_radius := Some 50 |}.

(** A polygon with two corners only. *)
Definition sliver : BoundaryData :=
  {| d_type := Some "polygon";
     d_coordinates :=
       Some [{| latitude := Some 0; longitude := Some 0 |};
             {| latitude := Some 0; longitude := Some 2 |}];
     d_buffer := None; d_name := Some "Sliver"; d_center := None;
     d_radius := None |}.

(** Three coordinates that already close on themselves. *)
Definition folded : BoundaryData :=
  {| d_type := Some "polygon";
     d_coordinates :=
       Some [{| latitude := Some 0; longitude := Some 0 |};
             {| latitude := Some 0; longitude := Some 2 |};
             {| latitude := Some 0; longitude := Some 0 |}];
     d_buffer := None; d_name := Some "Folded"; d_center := None;
     d_radius := None |}.

Definition config_with (listed : option (list BoundaryData))
    (file : option BoundaryFile) (center : option Location)
    : GeofenceConfig :=
  {| c_max_altitude := None; c_min_altitude := None;
     c_buffer_distance := None; c_boundaries := listed;
     c_boundary_file := file; c_default_center := center;
     c_default_radius := None |}.

Definition san_francisco : Location :=
  {| latitude := Some 37.7749; longitude := Some (-122.4194) |}.

(** A real vehicle in flight at latitude 1, longitude 3, outside the
    pad. *)
Definition astray : Vehicle :=
  {| mode_name := inr "GUIDED";
     armed := inr true;
     battery_level := inr (Some 80%Z);
     location := inr (1, 3, 10);
     commands_next := inr 0%Z;
     refuses := fun _ => None |}.

Definition flying_astray : DroneController :=
  controller false (Some pad_fence) FLYING (Some astray).

(** A vehicle on the ground after an automatic landing. *)
Definition landed : Vehicle :=
  {| mode_name := inr "LAND";
     armed := inr false;
     battery_level := inr (Some 80%Z);
     location := inr (1, 1, 0);
     commands_next := inr 0%Z;
     refuses := fun _ => None |}.

Definition whole (self : DroneController (K := RingModel.ring_planar))
    : Controller :=
  {| core := self;
     default_altitude := 10;
     default_airspeed := 3;
     home_location := None;
     monitoring_thread := false;
     mission_ops := [];
     closes := 0 |}.

(** A real controller before [connect()]. *)
Definition fresh : Controller :=
  whole (controller false (Some pad_fence) DISCONNECTED None).

Definition patrol : list Waypoint :=
  [{| w_latitude := 1; w_longitude := 1; w_altitude := Some 12 |};
   {| w_latitude := 1; w_longitude := 3; w_altitude := None |}].

Definition missions (id : string) : option MissionData :=
  if String.eqb id "patrol" then Some (WithWaypoints patrol)
  else if String.eqb id "blank" then Some NoKeys
  else None.

Definition accepts_all (op : MissionOp) : option exn := None.

Definition refuses_upload (op : MissionOp) : option exn :=
  match op with
  | Upload => Some "upload timed out"
  | _ => None
  end.

Definition altitudes : EmergencyConfig :=
  {| fire_inspection_altitude := 15; tracking_altitude := 10;
     investigation_altitude := 8; threat_observation_altitude := 40 |}.

Definition fire_at (l : option Location) : Detection :=
  {| e_type := "fire"; e_location := l |}.

(** The pad and a second boundary over the same ground. *)
Definition copy_boundary : Boundary :=
  @Build_Boundary RingModel.ring_planar polygon pad "Copy".

Definition two_pads : GeofenceManager :=
  {| boundaries := [pad_boundary; copy_boundary];
     Geofence.max_altitude := 30; min_altitude := 2; buffer_distance := 5 |}.

(** [bare] after the circle of [zone] was added, once and twice. *)
Definition zoned : GeofenceManager :=
  _create_circular_boundary (B := IdealModel.ideal_build) bare 1 2 50
    (Some "Zone").

Definition zoned_twice : GeofenceManager :=
  _create_circular_boundary (B := IdealModel.ideal_build) zoned 1 2 50
    (Some "Zone").

(** [bare] with the default circle only. *)
Definition default_only : GeofenceManager :=
  _create_circular_boundary (B := IdealModel.ideal_build) bare 37.7749
    (-122.4194) 100 None.

(** A vehicle without a position fix. *)
Definition mute : Vehicle :=
  {| mode_name := inr "GUIDED";
     armed := inr false;
     battery_level := inr (Some 80%Z);
     location := inl "no fix";
     commands_next := inr 0%Z;
     refuses := fun _ => None |}.

(** A controller whose vehicle is gone. *)
Definition detached : DroneController :=
  controller false None CONNECTED None.

End MoreInputs.

(** ** Vocabulary of the further statements *)

Module Statements.
Import Drone GeofenceAdmin Lifecycle Coordinator.
Local Open Scope string_scope.
Local Open Scope list_scope.

Section Defs.

Context {K : Planar}.

(** The data describe a boundary that [_add_boundary] builds: a polygon
    with at least three coordinates, or a circle. *)
Definition accepted (boundary_data : BoundaryData) : bool :=
  let boundary_type := get_or "polygon" (d_type boundary_data) in
  if String.eqb boundary_type "polygon" then
    Nat.leb 3 (List.length (get_or [] (d_coordinates boundary_data)))
  else String.eqb boundary_type "circle".

(** Some boundary carries the name. *)
Definition named (name : string) (bs : list Boundary) : Prop :=
  exists b, In b bs /\ b_name b = name.

(** The configuration with another boundary file. *)
Definition with_file (config : GeofenceConfig) (file : option BoundaryFile)
    : GeofenceConfig :=
  {| c_max_altitude := c_max_altitude config;
     c_min_altitude := c_min_altitude config;
     c_buffer_distance := c_buffer_distance config;
     c_boundaries := c_boundaries config;
     c_boundary_file := file;
     c_default_center := c_default_center config;
     c_default_radius := c_default_radius config |}.

(** The manager [__init__] starts from, before [_load_boundaries]. *)
Definition blank (config : GeofenceConfig) : GeofenceManager :=
  {| boundaries := [];
     Geofence.max_altitude := get_or 30 (c_max_altitude config);
     min_altitude := get_or 2 (c_min_altitude config);
     buffer_distance := get_or 5 (c_buffer_distance config) |}.

(** [P] survives everything the monitoring thread does to the
    controller: appending events, setting the waypoint index, replacing
    the observed vehicle, and setting the status to LANDING, RETURNING or
    CONNECTED. *)
Record monitor_proof (P : DroneController -> Prop) : Prop := {
  proof_events : forall s es, P s -> P (with_events s es);
  proof_waypoint : forall s i, P s -> P (with_waypoint s i);
  proof_vehicle : forall s v, P s -> P (with_vehicle s (Some v));
  proof_status :
    forall s st, P s -> In st [LANDING; RETURNING; CONNECTED] ->
                 P (with_status s st)
}.

(** The command [load_mission] adds for a waypoint. *)
Definition corrected (c : Controller) (w : Waypoint) : MissionOp :=
  let target := safe_target (core c) (w_latitude w) (w_longitude w) in
  Add (fst target) (snd target)
    (get_or (default_altitude c) (w_altitude w)).

(** The controller after some calls on [vehicle.commands] and some log
    entries. *)
Definition after_ops (c : Controller) (logs : list Event)
    (ops : list MissionOp) : Controller :=
  {| core := with_events (core c) (events (core c) ++ logs);
     default_altitude := default_altitude c;
     default_airspeed := default_airspeed c;
     home_location := home_location c;
     monitoring_thread := monitoring_thread c;
     mission_ops := mission_ops c ++ ops;
     closes := closes c |}.

(** As [keeps], for the whole controller object. *)
Definition keepsF {A} (Q : Controller -> Prop) (m : F A) : Prop :=
  forall c, Q c -> Q (snd (m c)).

(** Unless [m] returns [True], it ends in a state where [Q] holds. *)
Definition falls_back (Q : Controller -> Prop) (m : F bool) : Prop :=
  forall c, Q c ->
    match m c with
    | (Ok true, _) => True
    | (_, c') => Q c'
    end.

(** The mission the controller believes it flies, and its status. *)
Definition believes (id : option string) (index : Z) (st : DroneStatus)
    (c : Controller) : Prop :=
  current_mission (core c) = id
  /\ current_waypoint_index (core c) = index
  /\ status (core c) = st.

(** The altitude configured for an event type; [None] for a type that
    [handle_emergency] does not know. *)
Definition observation_altitude (emergency : EmergencyConfig)
    (event_type : string) : option R :=
  if String.eqb event_type "fire" then
    Some (fire_inspection_altitude emergency)
  else if String.eqb event_type "break_in" then
    Some (tracking_altitude emergency)
  else if String.eqb event_type "suspicious" then
    Some (investigation_altitude emergency)
  else if String.eqb event_type "threat" then
    Some (threat_observation_altitude emergency)
  else None.

End Defs.
End Statements.

(** * Properties *)

(** ** Comparisons on reals *)

Lemma Rltb_true (x y : R) : Rltb x y = true <-> x < y.
Proof.
  unfold Rltb. destruct (Rlt_dec x y); split; intros; auto; discriminate.
Qed.

Lemma Rltb_false (x y : R) : Rltb x y = false <-> y <= x.
Proof.
  unfold Rltb. destruct (Rlt_dec x y); split; intros;
    try discriminate; try lra; auto.
Qed.

Lemma Rleb_true (x y : R) : Rleb x y = true <-> x <= y.
Proof.
  unfold Rleb. destruct (Rle_dec x y); split; intros; auto; discriminate.
Qed.

Lemma Rleb_false (x y : R) : Rleb x y = false <-> y < x.
Proof.
  unfold Rleb. destruct (Rle_dec x y); split; intros;
    try discriminate; try lra; auto.
Qed.

Lemma Reqb_true (x y : R) : Reqb x y = true <-> x = y.
Proof.
  unfold Reqb. destruct (Req_dec_T x y); split; intros; auto; discriminate.
Qed.

Lemma Reqb_false (x y : R) : Reqb x y = false <-> x <> y.
Proof.
  unfold Reqb. destruct (Req_dec_T x y); split; intros;
    try discriminate; try contradiction; auto.
Qed.

(** Decides the comparisons of a goal between closed linear terms. *)
Ltac rcompare :=
  repeat match goal with
  | |- context [Rltb ?x ?y] =>
      first [ replace (Rltb x y) with true
                by (symmetry; apply Rltb_true; lra)
            | replace (Rltb x y) with false
                by (symmetry; apply Rltb_false; lra) ]
  | |- context [Rleb ?x ?y] =>
      first [ replace (Rleb x y) with true
                by (symmetry; apply Rleb_true; lra)
            | replace (Rleb x y) with false
                by (symmetry; apply Rleb_false; lra) ]
  | |- context [Reqb ?x ?y] =>
      first [ replace (Reqb x y) with true
                by (symmetry; apply Reqb_true; lra)
            | replace (Reqb x y) with false
                by (symmetry; apply Reqb_false; lra) ]
  end.

(** ** GeofenceManager *)

Module GeofenceFacts.
Section Facts.

Context {K : Planar}.

Lemma contained_in_some_spec (bs : list Boundary) (point : Point) :
  contained_in_some bs point = true <-> inside_some bs point.
Proof.
  unfold inside_some. induction bs as [|b bs IH]; simpl.
  - split; [discriminate | intros (b & [] & _)].
  - destruct (contains (b_geometry b) point) eqn:Hb.
    + split; auto. intros _. exists b. auto.
    + rewrite IH. split.
      * intros (b' & Hin & Hc). exists b'. auto.
      * intros (b' & [Heq | Hin] & Hc).
        -- subst b'. congruence.
        -- exists b'. auto.
Qed.

Lemma contained_in_some_false (bs : list Boundary) (point : Point) :
  contained_in_some bs point = false <-> ~ inside_some bs point.
Proof.
  rewrite <- contained_in_some_spec.
  destruct (contained_in_some bs point); split; congruence.
Qed.

(** C2. Containment is the union of the boundaries: [is_point_inside]
    answers true exactly when the geometry of at least one configured
    boundary contains the point, both when no altitude is given and when
    the altitude given is within the limits. *)
Theorem is_point_inside_union (self : GeofenceManager) (latitude longitude : R) :
  (is_point_inside self latitude longitude None = true
   <-> inside_some (boundaries self) (longitude, latitude))
  /\ (forall altitude,
        min_altitude self <= altitude <= max_altitude self ->
        (is_point_inside self latitude longitude (Some altitude) = true
         <-> inside_some (boundaries self) (longitude, latitude))).
Proof.
  unfold is_point_inside. split.
  - apply contained_in_some_spec.
  - intros altitude [Hlo Hhi].
    apply Rltb_false in Hlo. apply Rltb_false in Hhi.
    rewrite Hlo, Hhi. apply contained_in_some_spec.
Qed.

(** C3. The altitude check fails closed and comes on top of containment:
    an altitude above the maximum or below the minimum gives false
    whatever the boundaries are, and an altitude within the limits gives
    the answer of the containment test alone. *)
Theorem is_point_inside_altitude (self : GeofenceManager)
    (latitude longitude altitude : R) :
  (altitude > max_altitude self \/ altitude < min_altitude self ->
   is_point_inside self latitude longitude (Some altitude) = false)
  /\ (min_altitude self <= altitude <= max_altitude self ->
      is_point_inside self latitude longitude (Some altitude)
      = is_point_inside self latitude longitude None).
Proof.
  unfold is_point_inside. split.
  - intros [H | H].
    + apply Rltb_true in H. rewrite H. reflexivity.
    + apply Rltb_true in H. rewrite H, orb_true_r. reflexivity.
  - intros [Hlo Hhi].
    apply Rltb_false in Hlo. apply Rltb_false in Hhi.
    rewrite Hlo, Hhi. reflexivity.
Qed.

(** C10. With no boundary configured every point is outside, and
    [get_nearest_safe_point] hands back its input, so the corrected point
    is itself outside. *)
Theorem no_boundaries (self : GeofenceManager) (latitude longitude : R)
    (altitude : option R) :
  boundaries self = [] ->
  is_point_inside self latitude longitude altitude = false
  /\ get_nearest_safe_point self latitude longitude = (latitude, longitude)
  /\ is_point_inside self
       (fst (get_nearest_safe_point self latitude longitude))
       (snd (get_nearest_safe_point self latitude longitude)) None = false.
Proof.
  intros Hnil.
  assert (Hget : get_nearest_safe_point self latitude longitude
                 = (latitude, longitude)).
  { unfold get_nearest_safe_point, nearest_search. rewrite Hnil. reflexivity. }
  repeat split.
  - unfold is_point_inside. rewrite Hnil. simpl.
    destruct altitude as [alt|]; [|reflexivity].
    destruct (Rltb _ _ || Rltb _ _); reflexivity.
  - exact Hget.
  - rewrite Hget. unfold is_point_inside. rewrite Hnil. reflexivity.
Qed.

(** *** The search loops *)

Lemma nearest_search_snoc (bs : list Boundary) (x : Boundary) (point : Point) :
  nearest_search (bs ++ [x]) point
  = nearest_step point (nearest_search bs point) x.
Proof. unfold nearest_search. rewrite fold_left_app. reflexivity. Qed.

Lemma nth_error_snoc_last (bs : list Boundary) (x : Boundary) :
  nth_error (bs ++ [x]) (List.length bs) = Some x.
Proof.
  rewrite nth_error_app2 by lia. rewrite Nat.sub_diag. reflexivity.
Qed.

Lemma nearest_search_inv (bs : list Boundary) (point : Point) :
  search_inv bs point (nearest_search bs point).
Proof.
  induction bs as [|x bs IH] using rev_ind.
  - left. split; reflexivity.
  - right. rewrite nearest_search_snoc.
    destruct IH as [[-> ->] | (i & b & (Hnth & Hmin & Hfirst) & ->)].
    + exists 0%nat, x. unfold nearest_step. simpl. split; [|reflexivity].
      repeat split.
      * intros b' [<- | []]. lra.
      * intros j b' Hj. lia.
    + unfold nearest_step. simpl.
      fold (boundary_distance point x).
      destruct (Rltb (boundary_distance point x) (boundary_distance point b))
        eqn:Hlt.
      * apply Rltb_true in Hlt.
        exists (List.length bs), x. split; [|reflexivity].
        repeat split.
        -- apply nth_error_snoc_last.
        -- intros b' Hin. apply in_app_or in Hin.
           destruct Hin as [Hin | [<- | []]]; [|lra].
           specialize (Hmin b' Hin). lra.
        -- intros j b' Hj Hnth'.
           rewrite nth_error_app1 in Hnth' by exact Hj.
           apply nth_error_In in Hnth'. specialize (Hmin b' Hnth'). lra.
      * apply Rltb_false in Hlt.
        exists i, b. split; [|reflexivity].
        assert (Hi : (i < List.length bs)%nat).
        { apply nth_error_Some. congruence. }
        repeat split.
        -- rewrite nth_error_app1 by exact Hi. exact Hnth.
        -- intros b' Hin. apply in_app_or in Hin.
           destruct Hin as [Hin | [<- | []]]; auto.
        -- intros j b' Hj Hnth'.
           rewrite nth_error_app1 in Hnth' by lia. eauto.
Qed.

(** The loop of [calculate_breach_distance] keeps the middle local of the
    other search. *)
Lemma breach_fold_min_distance (bs : list Boundary) (point : Point)
    (acc : Nearest) :
  fold_left (breach_step point) bs (min_distance acc)
  = min_distance (fold_left (nearest_step point) bs acc).
Proof.
  revert acc. induction bs as [|x bs IH]; intros acc; simpl; [reflexivity|].
  rewrite <- IH. f_equal.
  unfold breach_step, nearest_step.
  destruct (ext_ltb _ (min_distance acc)); reflexivity.
Qed.

Lemma breach_fold_least (bs : list Boundary) (point : Point) :
  least_of (map (boundary_distance point) bs)
    (fold_left (breach_step point) bs PInf).
Proof.
  change PInf with (min_distance nearest_init).
  rewrite breach_fold_min_distance.
  fold (nearest_search bs point).
  destruct (nearest_search_inv bs point)
    as [[-> ->] | (i & b & (Hnth & Hmin & _) & ->)]; simpl.
  - reflexivity.
  - split.
    + apply in_map. eapply nth_error_In. exact Hnth.
    + intros d Hd. apply in_map_iff in Hd. destruct Hd as (b' & <- & Hin).
      auto.
Qed.

(** C6. [calculate_breach_distance] is 0 for a point inside some
    boundary; for any other point it is 111111 times the least, over all
    boundaries, of the distance from the point to the boundary's geometry
    (the infinite float when there is no boundary). *)
Theorem calculate_breach_distance_spec (self : GeofenceManager)
    (latitude longitude : R) :
  (inside_some (boundaries self) (longitude, latitude) ->
   calculate_breach_distance self latitude longitude = Fin 0)
  /\ (~ inside_some (boundaries self) (longitude, latitude) ->
      exists m,
        least_of (map (boundary_distance (longitude, latitude))
                    (boundaries self)) m
        /\ calculate_breach_distance self latitude longitude
           = ext_scale m 111111).
Proof.
  unfold calculate_breach_distance. split.
  - intros Hin. apply contained_in_some_spec in Hin. rewrite Hin. reflexivity.
  - intros Hout. apply contained_in_some_false in Hout. rewrite Hout.
    eexists. split; [apply breach_fold_least | reflexivity].
Qed.

(** *** Interpolation along the line to the center *)





End Facts.
End GeofenceFacts.

(** ** DroneController *)

Module DroneFacts.
Import Drone.
Local Open Scope string_scope.
Local Open Scope list_scope.
Local Open Scope drone_scope.

Section Facts.
Context {K : Planar}.

Lemma status_eqb_spec (a b : DroneStatus) : status_eqb a b = true <-> a = b.
Proof. destruct a, b; simpl; split; intros; congruence. Qed.

Lemma status_eqb_neq (a b : DroneStatus) : status_eqb a b = false <-> a <> b.
Proof. destruct a, b; simpl; split; intros; congruence. Qed.

(** *** Rules for [keeps] *)

Lemma keeps_ret {A} (P : DroneController -> Prop) (a : A) : keeps P (ret a).
Proof. intros self H. exact H. Qed.

Lemma keeps_raise {A} (P : DroneController -> Prop) (e : exn) :
  keeps P (raise e : M A).
Proof. intros self H. exact H. Qed.

Lemma keeps_read {A} (P : DroneController -> Prop) (attribute : exn + A) :
  keeps P (read attribute).
Proof. destruct attribute; [apply keeps_raise | apply keeps_ret]. Qed.

Lemma keeps_bind {A B} (P : DroneController -> Prop) (m : M A) (k : A -> M B) :
  keeps P m -> (forall a, keeps P (k a)) -> keeps P (bind m k).
Proof.
  intros Hm Hk self H. unfold bind. specialize (Hm self H).
  destruct (m self) as [[a | e] self']; simpl in *.
  - apply Hk. exact Hm.
  - exact Hm.
Qed.

Lemma keeps_get {A} (P : DroneController -> Prop) (k : DroneController -> M A) :
  (forall s, P s -> keeps P (k s)) -> keeps P (bind get k).
Proof. intros Hk self H. unfold bind, get. apply Hk; exact H. Qed.

Lemma keeps_try {A} (P : DroneController -> Prop) (body : M A)
    (handler : exn -> M A) :
  keeps P body -> (forall e, keeps P (handler e)) ->
  keeps P (try_except body handler).
Proof.
  intros Hb Hh self H. unfold try_except. specialize (Hb self H).
  destruct (body self) as [[a | e] self']; simpl in *.
  - exact Hb.
  - apply Hh. exact Hb.
Qed.


Lemma calls_snoc (m : Method) (es : list Event) (e : Event) :
  calls m (es ++ [e]) = (calls m es + if is_call m e then 1 else 0)%nat.
Proof.
  unfold calls. rewrite filter_app, length_app. simpl.
  destruct (is_call m e); reflexivity.
Qed.











(** *** The monitoring loop and exceptions *)

Lemma never_raises_ret {A} (a : A) : never_raises (ret a).
Proof. intros self. eexists _, _. reflexivity. Qed.

Lemma never_raises_emit (e : Event) : never_raises (emit e).
Proof. intros self. eexists _, _. reflexivity. Qed.

Lemma never_raises_bind {A B} (m : M A) (k : A -> M B) :
  never_raises m -> (forall a, never_raises (k a)) -> never_raises (bind m k).
Proof.
  intros Hm Hk self. unfold bind.
  destruct (Hm self) as (a & self' & ->). apply Hk.
Qed.

Lemma never_raises_get {A} (k : DroneController -> M A) :
  (forall s, never_raises (k s)) -> never_raises (bind get k).
Proof. intros Hk self. unfold bind, get. apply Hk. Qed.

(** A handler that does not raise makes the whole [try] safe, whatever
    the body does. *)
Lemma never_raises_try {A} (body : M A) (handler : exn -> M A) :
  (forall e, never_raises (handler e)) -> never_raises (try_except body handler).
Proof.
  intros Hh self. unfold try_except.
  destruct (body self) as [[a | e] self'].
  - eexists _, _. reflexivity.
  - apply Hh.
Qed.

Lemma never_raises_observe (frame : Vehicle) : never_raises (observe frame).
Proof.
  intros self. unfold observe. destruct (vehicle self); eexists _, _; reflexivity.
Qed.

Lemma monitor_loop_never_raises (frames : list Vehicle) :
  never_raises (monitor_loop frames).
Proof.
  induction frames as [|frame later IH]; simpl.
  - apply never_raises_ret.
  - apply never_raises_bind; [apply never_raises_observe | intros _].
    apply never_raises_get. intros s.
    assert (Hstop : never_raises
                      (log INFO "Drone monitoring thread stopped" ;; ret true)).
    { apply never_raises_bind; [apply never_raises_emit|].
      intros _. apply never_raises_ret. }
    destruct (running s); [|exact Hstop].
    destruct (vehicle s) as [v|]; [|exact Hstop].
    apply never_raises_bind; [|intros _; exact IH].
    apply never_raises_try. intros e.
    apply never_raises_bind; [apply never_raises_emit|].
    intros _. apply never_raises_emit.
Qed.

Lemma with_events_twice (self : DroneController) (es es' : list Event) :
  with_events (with_events self es) es' = with_events self es'.
Proof. reflexivity. Qed.

(** C8. No exception leaves the monitoring loop, and an iteration whose
    tick raises logs the error, sleeps 5 seconds and goes on with the
    next iteration from the state the tick left. *)
Theorem monitor_survives_tick_errors :
  (forall frames, never_raises (_monitor_drone frames))
  /\ (forall frame later self e failed,
        running self = true ->
        vehicle self <> None ->
        monitor_tick frame (with_vehicle self (Some frame)) = (Raise e, failed) ->
        monitor_loop (frame :: later) self
        = monitor_loop later
            (with_events failed
               (events failed
                ++ [Log LOG_ERROR "Error in drone monitoring"; Sleep 5]))).
Proof.
  split.
  - intros frames. unfold _monitor_drone.
    apply never_raises_bind; [apply never_raises_emit|].
    intros _. apply monitor_loop_never_raises.
  - intros frame later self e failed Hrun Hveh Htick.
    cbn [monitor_loop]. unfold bind at 1. unfold observe.
    destruct (vehicle self) as [v0|] eqn:Hv; [|contradiction].
    unfold bind at 1. unfold get.
    cbn [running vehicle with_vehicle]. rewrite Hrun.
    unfold bind at 1. unfold try_except. rewrite Htick.
    unfold log, bind, emit. cbn [events with_events].
    rewrite <- app_assoc. reflexivity.
Qed.

(** *** Commands *)

Ltac reduce_state :=
  cbn [simulation_mode geofence_manager max_altitude return_airspeed status
       vehicle events with_events with_status fst snd negb].

Ltac run_method :=
  unfold move_to_coordinates, return_to_home, checked_target, safe_target,
    log, link, read, try_except, bind, emit, get, set_status, ret, raise;
  reduce_state.

(** Case analysis on whatever the run of a method is waiting for. *)
Ltac branch self :=
  repeat (reduce_state;
          match goal with
          | |- context [simulation_mode self] =>
              destruct (simulation_mode self) eqn:?
          | |- context [match vehicle self with _ => _ end] =>
              destruct (vehicle self) eqn:?
          | |- context [status_eqb (status self) FLYING] =>
              destruct (status_eqb (status self) FLYING) eqn:?
          | |- context [match latitude ?l with _ => _ end] =>
              destruct (latitude l) eqn:?
          | |- context [match longitude ?l with _ => _ end] =>
              destruct (longitude l) eqn:?
          | |- context [match geofence_manager self with _ => _ end] =>
              destruct (geofence_manager self) eqn:?
          | |- context [is_point_inside ?g ?a ?b None] =>
              destruct (is_point_inside g a b None) eqn:?
          | |- context [match ?alt with Some _ => _ | None => _ end] =>
              is_var alt; destruct alt
          | |- context [Rltb ?a ?b] => destruct (Rltb a b) eqn:?
          | |- context [match location ?v with _ => _ end] =>
              destruct (location v) eqn:?
          | |- context [refuses ?v ?c] => destruct (refuses v c) eqn:?
          end).

(** C4, as the code has it.  [move_to_coordinates] never changes the
    status.  With a real vehicle it is refused in every status other
    than FLYING, leaving only log entries behind; while FLYING the only
    command it sends is a goto to the requested coordinates when the
    geofence contains them and to the nearest safe point when it does not,
    and it reports success only after sending it.  In simulation mode it
    reports success in every status, checks nothing and sends nothing. *)
Theorem move_to_coordinates_spec (self : DroneController) (loc : Location)
    (altitude : option R) :
  let out := move_to_coordinates loc altitude self in
  status (snd out) = status self
  /\ (simulation_mode self = true ->
      out = (Ok true,
             with_events self
               (events self
                ++ [Enter m_move_to_coordinates; Log INFO "SIMULATION: Moving"])))
  /\ (simulation_mode self = false -> status self <> FLYING ->
      fst out = Ok false
      /\ exists level text,
           snd out
           = with_events self
               (events self ++ [Enter m_move_to_coordinates; Log level text]))
  /\ (simulation_mode self = false -> status self = FLYING ->
      forall lat lon,
        latitude loc = Some lat -> longitude loc = Some lon ->
        let target := safe_target self lat lon in
        exists new,
          added (events self) (events (snd out)) new
          /\ (forall c, In (Link c) new ->
                exists alt, c = SimpleGoto (fst target) (snd target) alt)
          /\ (fst out = Ok true ->
                exists alt,
                  In (Link (SimpleGoto (fst target) (snd target) alt)) new)).
Proof.
  cbv zeta. split; [|split; [|split]].
  - run_method. branch self; reflexivity.
  - intros Hsim. run_method. rewrite Hsim. reduce_state.
    rewrite <- app_assoc. reflexivity.
  - intros Hsim Hs. apply status_eqb_neq in Hs. run_method. rewrite Hsim, Hs.
    branch self; reduce_state;
      (split; [reflexivity|]; eexists _, _; rewrite <- app_assoc; reflexivity).
  - intros Hsim Hfly lat lon Hlat Hlon. unfold added.
    apply status_eqb_spec in Hfly. run_method.
    rewrite Hsim, Hlat, Hlon, Hfly.
    branch self; reduce_state; repeat rewrite <- app_assoc;
      (eexists; split; [reflexivity|]; split;
       [ intros c Hc; cbn in Hc;
         repeat (destruct Hc as [Hc | Hc]; try discriminate);
         try contradiction; try (injection Hc as <-; eexists; reflexivity)
       | intros Hok; try discriminate; eexists; cbn; eauto 10 ]).
Qed.

(** *** Battery policy *)




End Facts.
End DroneFacts.

(** ** The code on explicit inputs *)

Module Runs.
Import RingModel Drone Inputs.
Local Open Scope string_scope.
Local Open Scope list_scope.

(** Evaluates a term of the ring kernel to the value [v]. *)
Ltac value_of t v :=
  let H := fresh in
  assert (H : t = v)
    by (unfold closer; unfold project, on_edge, ray_crosses;
        unfold cross, between, dist2, along, px, py; simpl;
        repeat (progress (rcompare; cbn [fst snd]));
        try reflexivity; f_equal; lra);
  rewrite H; clear H.

Ltac edge_tests f :=
  repeat match goal with
         | |- context [f ?p ?e] =>
             first [value_of (f p e) false | value_of (f p e) true]
         end.

Lemma pad_contains_center : ring_contains pad (1, 1) = true.
Proof.
  unfold ring_contains, crossings, pad. cbn [edges edges_from existsb filter].
  edge_tests on_edge. edge_tests ray_crosses. reflexivity.
Qed.

Lemma pad_excludes_outside : ring_contains pad (3, 1) = false.
Proof.
  unfold ring_contains, crossings, pad. cbn [edges edges_from existsb filter].
  edge_tests on_edge. edge_tests ray_crosses. reflexivity.
Qed.

Lemma pad_excludes_edge : ring_contains pad (2, 1) = false.
Proof.
  unfold ring_contains, pad. cbn [edges edges_from existsb].
  edge_tests on_edge. reflexivity.
Qed.

Lemma pad_nearest : ring_nearest (3, 1) pad = (2, 1).
Proof.
  unfold ring_nearest. rewrite pad_excludes_outside. unfold pad.
  cbn [edges edges_from fold_left]. unfold Point.
  value_of (project (3, 1) ((0, 0), (2, 0))) ((2, 0) : R * R).
  value_of (closer (3, 1) (2, 0) ((2, 0), (2, 2))) ((2, 1) : R * R).
  value_of (closer (3, 1) (2, 1) ((2, 2), (0, 2))) ((2, 1) : R * R).
  value_of (closer (3, 1) (2, 1) ((0, 2), (0, 0))) ((2, 1) : R * R).
  value_of (closer (3, 1) (2, 1) ((0, 0), (0, 0))) ((2, 1) : R * R).
  reflexivity.
Qed.

(** C1 on a polygon.  The only boundary is the square pad with corners
    (0,0) and (2,2).  The point at latitude 1, longitude 3 is outside; its
    nearest safe point is latitude 1, longitude 2, on the pad's edge, and
    [is_point_inside] answers false for it. *)
Theorem safe_point_of_polygon_is_outside :
  is_point_inside pad_fence 1 3 None = false
  /\ get_nearest_safe_point pad_fence 1 3 = (1, 2)
  /\ is_point_inside pad_fence
       (fst (get_nearest_safe_point pad_fence 1 3))
       (snd (get_nearest_safe_point pad_fence 1 3)) None = false.
Proof.
  assert (Hout : contained_in_some (boundaries pad_fence) (3, 1) = false).
  { cbn. rewrite pad_excludes_outside. reflexivity. }
  assert (Hsafe : get_nearest_safe_point pad_fence 1 3 = (1, 2)).
  { unfold get_nearest_safe_point. rewrite Hout.
    unfold nearest_search. cbn. rewrite pad_nearest. reflexivity. }
  repeat split.
  - exact Hout.
  - exact Hsafe.
  - rewrite Hsafe. cbn. rewrite pad_excludes_edge. reflexivity.
Qed.

(** Against C4: in simulation mode, before any connection, a move to a
    point outside the geofence is accepted, and nothing is sent. *)
Lemma move_accepted_while_disconnected :
  status simulated_disconnected = DISCONNECTED
  /\ fst (move_to_coordinates somewhere None simulated_disconnected) = Ok true
  /\ filter is_link
       (events (snd (move_to_coordinates somewhere None simulated_disconnected)))
     = [].
Proof. repeat split. Qed.

(** The level drops under the threshold of 15 once and stays there for
    three ticks, in flight over a link that accepts the writes:
    [return_to_home()] is called three times, and RTL is sent once. *)
Lemma return_to_home_called_every_tick :
  let levels := [80; 10; 10; 10]%Z in
  let frames :=
    [healthy "GUIDED" 80; healthy "GUIDED" 10; healthy "RTL" 10;
     healthy "RTL" 10] in
  let after := snd (monitor_loop frames flying_unfenced) in
  crossings_below 15 levels = 1%nat
  /\ calls m_return_to_home (events after) = 3%nat
  /\ rtl_commands (events after) = 1%nat.
Proof. cbv zeta. repeat split. Qed.


(** C8 on a vehicle that stops answering: the tick raises at its first
    read, and the loop goes on to the next frame. *)
Lemma monitor_survives_witness :
  (running flying_unfenced = true
   /\ vehicle flying_unfenced <> None
   /\ monitor_tick silent (with_vehicle flying_unfenced (Some silent))
      = (Raise "link lost", with_vehicle flying_unfenced (Some silent)))
  /\ monitor_loop [silent; healthy "GUIDED" 80] flying_unfenced
     = monitor_loop [healthy "GUIDED" 80]
         (with_events (with_vehicle flying_unfenced (Some silent))
            [Log LOG_ERROR "Error in drone monitoring"; Sleep 5]).
Proof.
  assert (Hv : vehicle flying_unfenced <> None) by discriminate.
  split.
  - repeat split. exact Hv.
  - exact (proj2 DroneFacts.monitor_survives_tick_errors
             silent [healthy "GUIDED" 80] flying_unfenced "link lost"
             (with_vehicle flying_unfenced (Some silent))
             eq_refl Hv eq_refl).
Defined.

(** C10 on the manager without boundaries. *)
Lemma no_boundaries_witness :
  boundaries no_fence = []
  /\ is_point_inside no_fence 1 3 (Some 10) = false
  /\ get_nearest_safe_point no_fence 1 3 = (1, 3)
  /\ is_point_inside no_fence
       (fst (get_nearest_safe_point no_fence 1 3))
       (snd (get_nearest_safe_point no_fence 1 3)) None = false.
Proof.
  split; [reflexivity|].
  exact (GeofenceFacts.no_boundaries no_fence 1 3 (Some 10) eq_refl).
Defined.

End Runs.

(** * Further properties *)

Module AdminFacts.
Import Drone GeofenceAdmin Statements.
Local Open Scope string_scope.
Local Open Scope list_scope.


Section Facts.

Context {K : Planar} {B : PlanarBuild K}.

Lemma pop_named_spec (name : string) (bs : list Boundary) :
  match pop_named name bs with
  | Some bs' =>
      exists before b rest,
        bs = before ++ b :: rest
        /\ b_name b = name
        /\ (forall b', In b' before -> b_name b' <> name)
        /\ bs' = before ++ rest
  | None => forall b, In b bs -> b_name b <> name
  end.
Proof.
  induction bs as [|b bs IH]; simpl.
  - intros b [].
  - destruct (String.eqb (b_name b) name) eqn:Hb.
    + apply String.eqb_eq in Hb. exists [], b, bs. simpl.
      repeat split; auto.
    + apply String.eqb_neq in Hb.
      destruct (pop_named name bs) as [bs'|].
      * destruct IH as (before & b0 & rest & -> & Hname & Hbefore & ->).
        exists (b :: before), b0, rest. simpl. repeat split; auto.
        intros b' [<- | Hin]; auto.
      * intros b' [<- | Hin]; auto.
Qed.

Lemma remove_boundary_cases (self : GeofenceManager) (name : string) :
  Geofence.max_altitude (snd (remove_boundary self name))
  = Geofence.max_altitude self
  /\ min_altitude (snd (remove_boundary self name)) = min_altitude self
  /\ buffer_distance (snd (remove_boundary self name))
     = buffer_distance self
  /\ if fst (remove_boundary self name) then
       exists before b rest,
         boundaries self = before ++ b :: rest
         /\ b_name b = name
         /\ (forall b', In b' before -> b_name b' <> name)
         /\ boundaries (snd (remove_boundary self name)) = before ++ rest
     else
       snd (remove_boundary self name) = self
       /\ forall b, In b (boundaries self) -> b_name b <> name.
Proof.
  unfold remove_boundary.
  pose proof (pop_named_spec name (boundaries self)) as H.
  destruct (pop_named name (boundaries self)) as [bs'|]; simpl.
  - repeat split; auto.
  - repeat split; auto.
Qed.

(** X1. [remove_boundary] keeps the three limits.  When it returns True
    it has removed exactly the first boundary carrying the name, the
    others staying in order; when it returns False no boundary carries the
    name and the manager is untouched. *)
Theorem remove_boundary_spec (self : GeofenceManager) (name : string) :
  let removed := fst (remove_boundary self name) in
  let after := snd (remove_boundary self name) in
  Geofence.max_altitude after = Geofence.max_altitude self
  /\ min_altitude after = min_altitude self
  /\ buffer_distance after = buffer_distance self
  /\ if removed then
       exists before b rest,
         boundaries self = before ++ b :: rest
         /\ b_name b = name
         /\ (forall b', In b' before -> b_name b' <> name)
         /\ boundaries after = before ++ rest
     else
       after = self /\ forall b, In b (boundaries self) -> b_name b <> name.
Proof.
  cbv zeta. apply remove_boundary_cases.
Qed.

Lemma contained_in_some_app (bs bs' : list Boundary) (p : Point) :
  contained_in_some (bs ++ bs') p
  = contained_in_some bs p || contained_in_some bs' p.
Proof.
  induction bs as [|b bs IH]; simpl; [reflexivity|].
  destruct (contains (b_geometry b) p); simpl; auto.
Qed.

Lemma is_point_inside_boundaries (self self' : GeofenceManager)
    (lat lon : R) (alt : option R) :
  Geofence.max_altitude self' = Geofence.max_altitude self ->
  min_altitude self' = min_altitude self ->
  (contained_in_some (boundaries self) (lon, lat) = true ->
   contained_in_some (boundaries self') (lon, lat) = true) ->
  is_point_inside self lat lon alt = true ->
  is_point_inside self' lat lon alt = true.
Proof.
  unfold is_point_inside. intros -> -> Hsub.
  destruct alt as [a|]; [destruct (_ || _)|]; auto.
Qed.

(** X2. Removing a boundary never lets a point in: a point inside
    after [remove_boundary] was inside before, at the same altitude. *)
Theorem remove_boundary_shrinks (self : GeofenceManager) (name : string)
    (lat lon : R) (alt : option R) :
  is_point_inside (snd (remove_boundary self name)) lat lon alt = true ->
  is_point_inside self lat lon alt = true.
Proof.
  pose proof (remove_boundary_cases self name) as H.
  destruct H as (Hmax & Hmin & _ & H).
  apply is_point_inside_boundaries; auto.
  destruct (fst (remove_boundary self name)).
  - destruct H as (before & b & rest & Hself & _ & _ & Hafter).
    rewrite Hself, Hafter, !contained_in_some_app. simpl.
    intros Hin. apply orb_true_iff in Hin.
    destruct Hin as [-> | ->]; [reflexivity|].
    destruct (contains _ _); simpl; apply orb_true_r.
  - destruct H as [-> _]. auto.
Qed.

Lemma with_boundaries_same (self : GeofenceManager) :
  with_boundaries self (boundaries self) = self.
Proof. destruct self. reflexivity. Qed.

Lemma name_or_given (name default : string) :
  name <> "" -> name_or (Some name) default = name.
Proof.
  intros Hne. unfold name_or. apply String.eqb_neq in Hne. rewrite Hne.
  reflexivity.
Qed.

(** What [_add_boundary] does when it returns. *)
Lemma _add_boundary_shape (self after : GeofenceManager) (data : BoundaryData) :
  _add_boundary self data = inr after ->
  if accepted data then
    exists b,
      after = with_boundaries self (boundaries self ++ [b])
      /\ forall name, d_name data = Some name -> name <> "" -> b_name b = name
  else after = self.
Proof.
  unfold _add_boundary, accepted. cbv zeta.
  destruct (String.eqb (get_or "polygon" (d_type data)) "polygon").
  - destruct (Nat.leb 3 _).
    + destruct (polygon_of _) as [e | g]; [discriminate|].
      intros [= <-]. eexists. split; [reflexivity|].
      intros name -> _. reflexivity.
    + intros [= <-]. reflexivity.
  - destruct (String.eqb (get_or "polygon" (d_type data)) "circle").
    + intros [= <-]. unfold _create_circular_boundary. cbv zeta.
      eexists. split; [reflexivity|].
      intros name -> Hne. simpl. apply name_or_given. exact Hne.
    + intros [= <-]. reflexivity.
Qed.

(** X3. When [_add_boundary] returns it has appended one boundary for
    a polygon of at least three coordinates or a circle and nothing
    otherwise; the boundaries already there and the limits are kept, so a
    point that was inside stays inside. *)
Theorem _add_boundary_appends (self after : GeofenceManager)
    (data : BoundaryData) :
  _add_boundary self data = inr after ->
  (exists new,
     boundaries after = boundaries self ++ new
     /\ List.length new = if accepted data then 1%nat else 0%nat)
  /\ Geofence.max_altitude after = Geofence.max_altitude self
  /\ min_altitude after = min_altitude self
  /\ buffer_distance after = buffer_distance self
  /\ forall lat lon alt,
       is_point_inside self lat lon alt = true ->
       is_point_inside after lat lon alt = true.
Proof.
  intros Hadd. apply _add_boundary_shape in Hadd.
  destruct (accepted data).
  - destruct Hadd as (b & -> & _). simpl. repeat split.
    + exists [b]. split; reflexivity.
    + intros lat lon alt. apply is_point_inside_boundaries; auto. simpl.
      rewrite contained_in_some_app. intros ->. reflexivity.
  - subst after. repeat split; auto.
    exists []. rewrite app_nil_r. split; reflexivity.
Qed.

(** X4. [add_temporary_boundary] answers True and changes nothing for
    a polygon with fewer than three coordinates and for a type that is
    neither polygon nor circle. *)
Theorem add_temporary_boundary_ignored (self : GeofenceManager)
    (data : BoundaryData) :
  accepted data = false ->
  add_temporary_boundary self data = (true, self).
Proof.
  unfold accepted, add_temporary_boundary, _add_boundary. cbv zeta.
  destruct (String.eqb (get_or "polygon" (d_type data)) "polygon").
  - intros ->. reflexivity.
  - intros ->. reflexivity.
Qed.

Lemma pop_named_fresh_snoc (name : string) (bs : list Boundary) (b : Boundary) :
  (forall b', In b' bs -> b_name b' <> name) ->
  b_name b = name ->
  pop_named name (bs ++ [b]) = Some bs.
Proof.
  intros Hfresh Hb. induction bs as [|b0 bs IH]; simpl.
  - apply String.eqb_eq in Hb. rewrite Hb. reflexivity.
  - assert (H0 : b_name b0 <> name) by (apply Hfresh; left; reflexivity).
    apply String.eqb_neq in H0. rewrite H0.
    rewrite IH; [reflexivity|]. intros b' Hin. apply Hfresh. right. exact Hin.
Qed.

(** X5. Adding a boundary under a non-empty name that no boundary
    carries and removing that name again gives back the manager as it
    was. *)
Theorem add_then_remove (self after : GeofenceManager) (data : BoundaryData)
    (name : string) :
  accepted data = true ->
  d_name data = Some name ->
  name <> "" ->
  (forall b, In b (boundaries self) -> b_name b <> name) ->
  _add_boundary self data = inr after ->
  remove_boundary after name = (true, self).
Proof.
  intros Hacc Hname Hne Hfresh Hadd.
  apply _add_boundary_shape in Hadd. rewrite Hacc in Hadd.
  destruct Hadd as (b & -> & Hb). specialize (Hb name Hname Hne).
  unfold remove_boundary. simpl.
  rewrite pop_named_fresh_snoc by assumption.
  f_equal. destruct self. reflexivity.
Qed.

(** X6. Names are not kept unique: after the same named boundary is
    added twice, one [remove_boundary] succeeds and a boundary of that
    name is still there. *)
Theorem names_may_repeat (self once twice : GeofenceManager)
    (data : BoundaryData) (name : string) :
  accepted data = true ->
  d_name data = Some name ->
  name <> "" ->
  _add_boundary self data = inr once ->
  _add_boundary once data = inr twice ->
  fst (remove_boundary twice name) = true
  /\ named name (boundaries (snd (remove_boundary twice name))).
Proof.
  intros Hacc Hname Hne H1 H2.
  apply _add_boundary_shape in H1, H2. rewrite Hacc in H1, H2.
  destruct H1 as (b1 & -> & Hb1). destruct H2 as (b2 & -> & Hb2).
  specialize (Hb1 name Hname Hne). specialize (Hb2 name Hname Hne).
  pose proof (remove_boundary_cases
                (with_boundaries
                   (with_boundaries self (boundaries self ++ [b1]))
                   (boundaries (with_boundaries self (boundaries self ++ [b1]))
                    ++ [b2])) name) as H.
  cbv zeta in H. destruct H as (_ & _ & _ & H).
  destruct (fst (remove_boundary _ name)).
  - split; [reflexivity|].
    destruct H as (before & b & rest & Hall & Hb & Hbefore & ->).
    simpl in Hall.
    (* the two added boundaries are the last two; only one is removed *)
    assert (Hin1 : In b1 (before ++ b :: rest)).
    { rewrite <- Hall. apply in_or_app. left. apply in_or_app. right.
      left. reflexivity. }
    assert (Hin2 : In b2 (before ++ b :: rest)).
    { rewrite <- Hall. apply in_or_app. right. left. reflexivity. }
    destruct rest as [|r rest'] using rev_ind.
    + (* the removed one is the last: b1 is in [before], impossible *)
      assert (Heq : (boundaries self ++ [b1]) ++ [b2] = before ++ [b])
        by exact Hall.
      apply app_inj_tail in Heq. destruct Heq as [Hbef _].
      exfalso. apply (Hbefore b1); [|exact Hb1].
      rewrite <- Hbef. apply in_or_app. right. left. reflexivity.
    + assert (Heq : (boundaries self ++ [b1]) ++ [b2]
                    = (before ++ b :: rest') ++ [r]).
      { rewrite Hall. rewrite <- app_assoc. reflexivity. }
      apply app_inj_tail in Heq. destruct Heq as [_ <-].
      exists b2. split; [|exact Hb2].
      apply in_or_app. right. apply in_or_app. right. left. reflexivity.
  - exfalso. destruct H as [_ Hnone].
    apply (Hnone b2); [|exact Hb2]. simpl.
    apply in_or_app. right. left. reflexivity.
Qed.

Lemma _create_circular_boundary_nonempty (self : GeofenceManager)
    (lat lon radius : R) (name : option string) :
  boundaries (_create_circular_boundary self lat lon radius name) <> [].
Proof.
  unfold _create_circular_boundary. simpl.
  destruct (boundaries self); discriminate.
Qed.

(** X7. A manager constructed from a configuration with
    ['default_center'] has at least one boundary. *)
Theorem default_center_gives_a_boundary (config : GeofenceConfig)
    (m : GeofenceManager) :
  __init__ config = inr m ->
  c_default_center config <> None ->
  boundaries m <> [].
Proof.
  unfold __init__, _load_boundaries.
  set (start := {| boundaries := [] |}).
  intros Hinit Hcenter.
  destruct (c_default_center config) as [center|]; [|contradiction].
  match type of Hinit with
  | match ?l with _ => _ end = _ => destruct l as [[e|] loaded]
  end; [discriminate|].
  destruct (boundaries loaded) eqn:Hb.
  - injection Hinit as <-. apply _create_circular_boundary_nonempty.
  - injection Hinit as <-. rewrite Hb. discriminate.
Qed.

(** X8. Without the key ['boundaries'] the constructor always returns a
    manager: whatever the boundary file holds, a missing or unreadable
    file and a polygon that shapely rejects included. *)
Theorem boundary_file_never_fails (config : GeofenceConfig) :
  c_boundaries config = None ->
  exists m, __init__ config = inr m.
Proof.
  unfold __init__, _load_boundaries. intros ->.
  set (start := {| boundaries := [] |}).
  destruct (c_boundary_file config) as [[| e | data | data | b |]|];
    match goal with
    | |- context [boundaries ?s] =>
        destruct (boundaries s); destruct (c_default_center config);
        eexists; reflexivity
    end.
Qed.

Lemma add_each_app (self : GeofenceManager) (d1 d2 : list BoundaryData) :
  add_each self (d1 ++ d2)
  = match add_each self d1 with
    | (None, self') => add_each self' d2
    | (Some e, self') => (Some e, self')
    end.
Proof.
  revert self. induction d1 as [|d d1 IH]; intros self; simpl; [reflexivity|].
  destruct (_add_boundary self d); [reflexivity | apply IH].
Qed.

(** X9. In a boundary file a polygon that shapely rejects ends the
    loading: the boundaries listed after it are dropped, the manager is
    the one the file cut before it would give. *)
Theorem boundary_file_stops_at_rejected (config : GeofenceConfig)
    (good later : list BoundaryData) (bad : BoundaryData) (e : exn)
    (loaded : GeofenceManager) :
  c_boundaries config = None ->
  add_each (blank config) good = (None, loaded) ->
  _add_boundary loaded bad = inl e ->
  __init__ (with_file config (Some (JsonList (good ++ bad :: later))))
  = __init__ (with_file config (Some (JsonList good))).
Proof.
  intros Hlisted Hgood Hbad.
  unfold __init__, _load_boundaries, with_file. simpl. rewrite Hlisted.
  change {| boundaries := [];
            Geofence.max_altitude := get_or 30 (c_max_altitude config);
            min_altitude := get_or 2 (c_min_altitude config);
            buffer_distance := get_or 5 (c_buffer_distance config) |}
    with (blank config).
  rewrite add_each_app, Hgood. simpl. rewrite Hbad. reflexivity.
Qed.

End Facts.
End AdminFacts.

Module BreachFacts.
Section Facts.
Context {K : Planar}.

Lemma distance_nonneg (p q : Point) : 0 <= distance p q.
Proof. unfold distance. apply sqrt_pos. Qed.

(** X10. [calculate_breach_distance] is the infinite float exactly when
    no boundary is configured, and a finite result is never negative. *)
Theorem breach_distance_range (self : GeofenceManager) (latitude longitude : R) :
  (calculate_breach_distance self latitude longitude = PInf
   <-> boundaries self = [])
  /\ forall r,
       calculate_breach_distance self latitude longitude = Fin r -> 0 <= r.
Proof.
  unfold calculate_breach_distance.
  destruct (contained_in_some (boundaries self) (longitude, latitude)) eqn:Hc.
  - split.
    + split; [discriminate|]. intros Hnil. rewrite Hnil in Hc. discriminate.
    + intros r [= <-]. lra.
  - pose proof (GeofenceFacts.breach_fold_least (boundaries self)
                  (longitude, latitude)) as Hleast.
    destruct (fold_left _ _ _) as [m|]; simpl in *.
    + split.
      * split; [discriminate|]. intros Hnil. rewrite Hnil in Hleast.
        destruct Hleast as [[] _].
      * intros r [= <-]. destruct Hleast as [Hin _].
        apply in_map_iff in Hin. destruct Hin as (b & <- & _).
        pose proof (distance_nonneg (longitude, latitude)
                      (nearest_point (longitude, latitude) (b_geometry b))).
        unfold boundary_distance. nra.
    + split.
      * split; [|reflexivity]. intros _.
        destruct (boundaries self); [reflexivity | discriminate].
      * discriminate.
Qed.

(** X11. With polygon boundaries only, the breach distance of a point
    outside all of them is 111111 times its distance to the point
    [get_nearest_safe_point] returns for it. *)
Theorem breach_distance_to_safe_point (self : GeofenceManager)
    (latitude longitude : R) :
  ~ inside_some (boundaries self) (longitude, latitude) ->
  boundaries self <> [] ->
  (forall b, In b (boundaries self) -> b_type b = polygon) ->
  let safe := get_nearest_safe_point self latitude longitude in
  calculate_breach_distance self latitude longitude
  = Fin (distance (longitude, latitude) (snd safe, fst safe) * 111111).
Proof.
  intros Hout Hne Hpoly. cbv zeta.
  apply GeofenceFacts.contained_in_some_false in Hout.
  unfold calculate_breach_distance, get_nearest_safe_point. rewrite Hout.
  change PInf with (min_distance nearest_init).
  rewrite GeofenceFacts.breach_fold_min_distance.
  fold (nearest_search (boundaries self) (longitude, latitude)).
  destruct (GeofenceFacts.nearest_search_inv (boundaries self)
              (longitude, latitude))
    as [[Hnil _] | (i & b & (Hnth & _) & ->)]; [contradiction|].
  simpl. rewrite (Hpoly b) by (eapply nth_error_In; exact Hnth).
  simpl. unfold boundary_distance, px, py.
  destruct (nearest_point _ _). reflexivity.
Qed.

End Facts.
End BreachFacts.

Module MonitorFacts.
Import Drone DroneFacts Statements.
Local Open Scope string_scope.
Local Open Scope list_scope.
Local Open Scope drone_scope.

Section Facts.
Context {K : Planar}.

Section Footprint.

Variable P : DroneController -> Prop.
Hypothesis HP : monitor_proof P.

Lemma proof_emit (e : Event) : keeps P (emit e).
Proof. intros self H. apply (proof_events P HP). exact H. Qed.

Lemma proof_set_status (st : DroneStatus) :
  In st [LANDING; RETURNING; CONNECTED] -> keeps P (set_status st).
Proof. intros Hst self H. apply (proof_status P HP); assumption. Qed.

Lemma proof_set_waypoint (i : Z) : keeps P (set_waypoint i).
Proof. intros self H. apply (proof_waypoint P HP). exact H. Qed.

Lemma proof_observe (frame : Vehicle) : keeps P (observe frame).
Proof.
  intros self H. unfold observe.
  destruct (vehicle self); [apply (proof_vehicle P HP)|]; exact H.
Qed.

Lemma proof_link (v : Vehicle) (c : LinkCommand) : keeps P (link v c).
Proof.
  unfold link. apply keeps_bind; [apply proof_emit|].
  intros _. destruct (refuses v c); [apply keeps_raise | apply keeps_ret].
Qed.

Ltac proof_step :=
  first
    [ apply keeps_ret
    | apply keeps_raise
    | apply keeps_read
    | apply proof_set_waypoint
    | apply proof_set_status; simpl; tauto
    | apply proof_emit
    | apply proof_link
    | apply keeps_try; [ | intros ? ]
    | apply keeps_get; intros ? ?
    | apply keeps_bind; [ | intros ? ] ].

Lemma proof_return_to_home : keeps P return_to_home.
Proof.
  unfold return_to_home, log.
  proof_step; [proof_step|]. proof_step.
  destruct (simulation_mode s); [repeat proof_step|].
  destruct (vehicle s) as [v|]; [|repeat proof_step].
  destruct (negb (status_eqb (status s) FLYING)); repeat proof_step.
Qed.

Lemma proof_move_to_coordinates (loc : Location) (altitude : option R) :
  keeps P (move_to_coordinates loc altitude).
Proof.
  unfold move_to_coordinates, checked_target, log.
  proof_step; [proof_step|]. proof_step.
  destruct (simulation_mode s); [repeat proof_step|].
  destruct (vehicle s) as [v|]; [|repeat proof_step].
  destruct (negb (status_eqb (status s) FLYING)); [repeat proof_step|].
  destruct (latitude loc) as [lat|]; [|repeat proof_step].
  destruct (longitude loc) as [lon|]; [|repeat proof_step].
  proof_step.
  - proof_step. destruct (geofence_manager s0) as [gm|];
      [|repeat proof_step].
    destruct (negb (is_point_inside gm lat lon None)); repeat proof_step.
  - proof_step.
    + destruct altitude as [alt|]; [|repeat proof_step].
      destruct (Rltb (max_altitude s) alt); repeat proof_step.
    + repeat proof_step.
Qed.

Lemma proof_monitor_tick (v : Vehicle) : keeps P (monitor_tick v).
Proof.
  unfold monitor_tick.
  apply keeps_bind; [|intros _].
  { unfold check_mode_changes, log. proof_step; [proof_step|].
    proof_step.
    destruct (_ && _); [repeat proof_step|].
    proof_step; [proof_step|].
    destruct (_ && _); repeat proof_step. }
  apply keeps_bind; [|intros _].
  { unfold check_landed, log. proof_step.
    destruct (status_eqb (status s) LANDING); [|proof_step].
    proof_step; [proof_step|].
    destruct (negb a); repeat proof_step. }
  apply keeps_bind; [|intros _].
  { unfold check_mission_progress, log. proof_step; [proof_step|].
    proof_step.
    destruct (_ && _); [|proof_step].
    proof_step; [proof_step|].
    destruct (negb _); repeat proof_step. }
  apply keeps_bind; [|intros _].
  { unfold check_battery, log. proof_step; [proof_step|].
    destruct a as [l|]; [|proof_step].
    proof_step; [proof_step|].
    destruct a as [l'|]; [|proof_step].
    proof_step.
    destruct (Z.ltb l' (critical_battery_level s)).
    - proof_step; [proof_step|].
      proof_step; [apply proof_return_to_home | proof_step].
    - destruct (Z.ltb l' (low_battery_level s)); proof_step. }
  apply keeps_bind; [|intros _].
  { unfold check_geofence, log. proof_step.
    destruct (geofence_manager s) as [gm|]; [|proof_step].
    destruct (status_eqb (status s) FLYING); [|proof_step].
    proof_step; [proof_step|].
    destruct a as [[lat lon] alt].
    destruct (negb (is_point_inside gm lat lon None)); [|proof_step].
    proof_step; [proof_step|].
    proof_step; [apply proof_move_to_coordinates | proof_step]. }
  proof_step.
Qed.

Lemma proof_iteration (v : Vehicle) :
  keeps P
    (try_except (monitor_tick v)
       (fun e => log LOG_ERROR "Error in drone monitoring" ;; emit (Sleep 5))).
Proof.
  apply keeps_try; [apply proof_monitor_tick|].
  intros e. unfold log. repeat proof_step.
Qed.

Lemma proof_monitor_loop (frames : list Vehicle) :
  keeps P (monitor_loop frames).
Proof.
  induction frames as [|frame later IH]; simpl.
  - apply keeps_ret.
  - apply keeps_bind; [apply proof_observe | intros _].
    apply keeps_get. intros s Hs.
    destruct (running s); [|unfold log; repeat proof_step].
    destruct (vehicle s) as [v|]; [|unfold log; repeat proof_step].
    apply keeps_bind; [apply proof_iteration | intros _; exact IH].
Qed.

End Footprint.

Lemma still_running_proof :
  monitor_proof (fun s => running s = true /\ vehicle s <> None).
Proof.
  constructor; simpl; intros; auto.
  - split; [tauto | discriminate].
Qed.

(** X12. The monitoring loop does not end by itself: started with
    [running] set and a vehicle attached it is still in its loop after any
    number of iterations, whatever the vehicle reports and whichever ticks
    raise, and has left [running] and the vehicle in place. *)
Theorem monitor_never_stops_by_itself (frames : list Vehicle)
    (self : DroneController) :
  running self = true ->
  vehicle self <> None ->
  fst (monitor_loop frames self) = Ok false
  /\ running (snd (monitor_loop frames self)) = true
  /\ vehicle (snd (monitor_loop frames self)) <> None.
Proof.
  intros Hrun Hveh. split.
  - revert self Hrun Hveh.
    induction frames as [|frame later IH]; intros self Hrun Hveh;
      [reflexivity|].
    cbn [monitor_loop]. unfold bind at 1.
    pose proof (proof_observe _ still_running_proof frame self
                  (conj Hrun Hveh)) as Hobs.
    destruct (observe frame self) as [[[] | e] s1] eqn:Ho.
    2:{ unfold observe in Ho. destruct (vehicle self); discriminate. }
    cbn [snd] in Hobs. destruct Hobs as [Hrun1 Hveh1].
    unfold bind at 1. unfold get. rewrite Hrun1.
    destruct (vehicle s1) as [v|] eqn:Hv1; [|contradiction].
    unfold bind at 1.
    pose proof (proof_iteration _ still_running_proof v s1) as Hit.
    assert (Hp1 : running s1 = true /\ vehicle s1 <> None)
      by (rewrite Hv1; split; [exact Hrun1 | discriminate]).
    specialize (Hit Hp1).
    destruct (try_except _ _ s1) as [[[] | e] s2] eqn:Ht.
    + cbn [snd] in Hit. apply IH; tauto.
    + exfalso. unfold try_except in Ht.
      destruct (monitor_tick v s1) as [[[] | e'] s']; [discriminate|].
      unfold log, bind, emit in Ht. discriminate.
  - apply (proof_monitor_loop _ still_running_proof frames self).
    split; assumption.
Qed.

Lemma status_range_proof (s0 : DroneStatus) :
  monitor_proof
    (fun s => In (status s) [s0; LANDING; RETURNING; CONNECTED]).
Proof.
  constructor; simpl; intros; auto.
Qed.

(** X13. The monitoring loop leaves the status as it found it or at
    LANDING, RETURNING or CONNECTED; it never sets FLYING, ARMED, ERROR or
    DISCONNECTED. *)
Theorem monitor_status_range (frames : list Vehicle) (self : DroneController) :
  In (status (snd (monitor_loop frames self)))
     [status self; LANDING; RETURNING; CONNECTED].
Proof.
  apply (proof_monitor_loop _ (status_range_proof (status self)) frames self).
  left. reflexivity.
Qed.

(** X14. With [running] cleared or no vehicle attached the loop stops
    at its next test: it logs that the thread stopped, reads nothing and
    leaves the status alone. *)
Theorem monitor_stops_when_told (frame : Vehicle) (later : list Vehicle)
    (self : DroneController) :
  running self = false \/ vehicle self = None ->
  fst (monitor_loop (frame :: later) self) = Ok true
  /\ events (snd (monitor_loop (frame :: later) self))
     = events self ++ [Log INFO "Drone monitoring thread stopped"]
  /\ status (snd (monitor_loop (frame :: later) self)) = status self.
Proof.
  intros H.
  assert (Hrun : exists after,
             monitor_loop (frame :: later) self = (Ok true, after)
             /\ events after
                = events self ++ [Log INFO "Drone monitoring thread stopped"]
             /\ status after = status self).
  { cbn [monitor_loop]. unfold bind at 1, observe.
    destruct (vehicle self) as [v|] eqn:Hv.
    - destruct H as [Hrun | ?]; [|discriminate].
      unfold bind, get, log, emit, ret. cbn. rewrite Hrun.
      eexists. repeat split.
    - unfold bind, get, log, emit, ret. rewrite Hv.
      destruct (running self); eexists; repeat split. }
  destruct Hrun as (after & -> & Hev & Hst). auto.
Qed.

End Facts.
End MonitorFacts.

Module CommandFacts.
Import Drone DroneFacts.
Local Open Scope string_scope.
Local Open Scope list_scope.
Local Open Scope drone_scope.

Section Facts.
Context {K : Planar}.

Ltac settle :=
  cbn [simulation_mode geofence_manager max_altitude return_airspeed status
       critical_battery_level low_battery_level running current_mission
       current_waypoint_index vehicle events latitude longitude
       with_events with_status with_waypoint with_vehicle
       fst snd negb andb orb status_eqb String.eqb Ascii.eqb Bool.eqb].

Ltac unfold_run :=
  unfold monitor_tick, check_mode_changes, check_landed,
    check_mission_progress, check_battery, check_geofence,
    move_to_coordinates, return_to_home, checked_target, safe_target,
    log, link, read, try_except, bind, emit, get, set_status, set_waypoint,
    ret, raise;
  settle.

(** Case analysis on what the run is waiting for. *)
Ltac cases :=
  repeat (settle;
          match goal with
          | H : status ?s = _ |- context [status ?s] => rewrite H
          | H : simulation_mode ?s = _ |- context [simulation_mode ?s] =>
              rewrite H
          | |- context [match mode_name ?v with _ => _ end] =>
              destruct (mode_name v) eqn:?
          | |- context [match armed ?v with _ => _ end] =>
              destruct (armed v) as [?|[|]] eqn:?
          | |- context [match commands_next ?v with _ => _ end] =>
              destruct (commands_next v) eqn:?
          | |- context [match battery_level ?v with _ => _ end] =>
              destruct (battery_level v) as [?|[?|]] eqn:?
          | |- context [match location ?v with _ => _ end] =>
              destruct (location v) as [?|[[? ?] ?]] eqn:?
          | |- context [match vehicle ?s with _ => _ end] =>
              destruct (vehicle s) eqn:?
          | |- context [match geofence_manager ?s with _ => _ end] =>
              destruct (geofence_manager s) eqn:?
          | |- context [if simulation_mode ?s then _ else _] =>
              destruct (simulation_mode s) eqn:?
          | |- context [is_point_inside ?g ?a ?b None] =>
              destruct (is_point_inside g a b None) eqn:?
          | |- context [Rltb ?a ?b] => destruct (Rltb a b) eqn:?
          | |- context [Z.ltb ?a ?b] => destruct (Z.ltb a b) eqn:?
          | |- context [Z.eqb ?a ?b] => destruct (Z.eqb a b) eqn:?
          | |- context [mission_active ?s] => destruct (mission_active s) eqn:?
          | |- context [String.eqb ?a ?b] => destruct (String.eqb a b) eqn:?
          | |- context [refuses ?v ?c] => destruct (refuses v c) eqn:?
          end).

(** What a move with an altitude sends while flying. *)
Lemma move_while_flying (self : DroneController) (loc : Location)
    (lat lon alt : R) (v : Vehicle) :
  simulation_mode self = false ->
  vehicle self = Some v ->
  status self = FLYING ->
  latitude loc = Some lat ->
  longitude loc = Some lon ->
  (forall c, refuses v c = None) ->
  exists after,
    move_to_coordinates loc (Some alt) self = (Ok true, after)
    /\ status after = FLYING
    /\ filter is_link (events after)
       = filter is_link (events self)
         ++ [Link (SimpleGoto (fst (safe_target self lat lon))
                     (snd (safe_target self lat lon))
                     (if Rltb (max_altitude self) alt then max_altitude self
                      else alt))].
Proof.
  intros Hsim Hv Hfly Hlat Hlon Hlink. unfold_run.
  rewrite Hsim, Hv, Hfly, Hlat, Hlon. settle.
  destruct (geofence_manager self) as [gm|];
    [destruct (is_point_inside gm lat lon None)|];
    destruct (Rltb (max_altitude self) alt); settle;
    rewrite Hlink; settle; eexists; (split; [reflexivity|]); settle;
    (split; [exact Hfly|]);
    rewrite !filter_app; cbn [filter is_link]; rewrite ?app_nil_r;
    reflexivity.
Qed.

(** X15. A move with an altitude, made with a real vehicle in flight
    over a link that accepts the writes, succeeds and sends exactly one
    goto, to the geofence-checked target; the altitude is cut to
    [max_altitude] when it exceeds it and passed on unchanged otherwise,
    however low. *)
Theorem move_sends_clamped_altitude (self : DroneController) (loc : Location)
    (lat lon alt : R) (v : Vehicle) :
  simulation_mode self = false ->
  vehicle self = Some v ->
  status self = FLYING ->
  latitude loc = Some lat ->
  longitude loc = Some lon ->
  (forall c, refuses v c = None) ->
  let out := move_to_coordinates loc (Some alt) self in
  let target := safe_target self lat lon in
  fst out = Ok true
  /\ filter is_link (events (snd out))
     = filter is_link (events self)
       ++ [Link (SimpleGoto (fst target) (snd target)
                   (if Rltb (max_altitude self) alt then max_altitude self
                    else alt))].
Proof.
  intros Hsim Hv Hfly Hlat Hlon Hlink. cbv zeta.
  destruct (move_while_flying self loc lat lon alt v
              Hsim Hv Hfly Hlat Hlon Hlink) as (after & -> & _ & Hev).
  split; [reflexivity | exact Hev].
Qed.

(** X16. The geofence check of a tick that finds the vehicle in flight
    outside the geofence sends exactly one goto, at the current altitude,
    to the nearest safe point as [move_to_coordinates] checks it once
    more, and leaves the status FLYING. *)
Theorem breach_is_corrected (self : DroneController) (v : Vehicle)
    (gm : GeofenceManager) (lat lon alt : R) :
  simulation_mode self = false ->
  vehicle self = Some v ->
  status self = FLYING ->
  geofence_manager self = Some gm ->
  location v = inr (lat, lon, alt) ->
  is_point_inside gm lat lon None = false ->
  (forall c, refuses v c = None) ->
  let out := check_geofence v self in
  let safe := get_nearest_safe_point gm lat lon in
  let target := safe_target self (fst safe) (snd safe) in
  fst out = Ok tt
  /\ status (snd out) = FLYING
  /\ filter is_link (events (snd out))
     = filter is_link (events self)
       ++ [Link (SimpleGoto (fst target) (snd target) alt)].
Proof.
  intros Hsim Hv Hfly Hgm Hloc Hout Hlink. cbv zeta. unfold_run.
  repeat (first [ rewrite Hsim | rewrite Hv | rewrite Hfly | rewrite Hgm
                | rewrite Hloc | rewrite Hout | rewrite Hlink ]; settle).
  destruct (is_point_inside gm (fst (get_nearest_safe_point gm lat lon))
              (snd (get_nearest_safe_point gm lat lon)) None); settle;
    repeat (first [ rewrite Hloc | rewrite Hlink ]; settle);
    (repeat split; [exact Hfly|]);
    rewrite !filter_app; cbn [filter is_link]; rewrite ?app_nil_r;
    reflexivity.
Qed.

(** X17. With a real vehicle, a tick that reads mode LAND and a
    disarmed vehicle ends with status CONNECTED, whatever the status was
    and whatever the later reads of the tick do. *)
Theorem landed_vehicle_is_connected (self : DroneController) (v : Vehicle) :
  simulation_mode self = false ->
  mode_name v = inr "LAND" ->
  armed v = inr false ->
  status (snd (monitor_tick v self)) = CONNECTED.
Proof.
  intros Hsim Hmode Harmed. unfold_run.
  rewrite Hmode. settle.
  destruct (status self) eqn:Hst; settle; rewrite ?Harmed; settle;
    rewrite ?Hsim; cases; first [reflexivity | congruence].
Qed.

End Facts.
End CommandFacts.

Module LifecycleFacts.
Import Drone DroneFacts Lifecycle Statements.
Local Open Scope string_scope.
Local Open Scope list_scope.
Local Open Scope drone_scope.

Section Facts.
Context {K : Planar}.

Ltac settle :=
  cbn [simulation_mode geofence_manager max_altitude return_airspeed status
       critical_battery_level low_battery_level running current_mission
       current_waypoint_index vehicle events latitude longitude
       with_events with_status with_waypoint with_vehicle with_running
       with_mission with_core core default_altitude default_airspeed
       home_location monitoring_thread mission_ops closes
       fst snd negb andb orb status_eqb is_flying].

Ltac unfold_run :=
  unfold connect, disconnect, load_mission, _create_simulated_drone, land,
    _simulated_landing_complete, return_to_home,
    lift, bindF, retF, getF, try_exceptF, set_home, start_thread,
    close_vehicle, mission_op, set_vehicle, set_running, set_mission,
    log, link, read, try_except, bind, emit, get, set_status, set_waypoint,
    ret, raise;
  settle.

(** X18. With a real vehicle attached and a link that accepts the mode
    change, [land()] succeeds exactly when [is_flying()] holds; it then
    sends LAND once and sets LANDING, and otherwise sends nothing and
    leaves the status. *)
Theorem land_iff_flying (self : DroneController) (v : Vehicle) :
  simulation_mode self = false ->
  vehicle self = Some v ->
  refuses v (SetMode "LAND") = None ->
  fst (land self) = Ok (is_flying self)
  /\ status (snd (land self))
     = (if is_flying self then LANDING else status self)
  /\ filter is_link (events (snd (land self)))
     = filter is_link (events self)
       ++ (if is_flying self then [Link (SetMode "LAND")] else []).
Proof.
  intros Hsim Hv Hlink. unfold_run. rewrite Hsim, Hv. settle.
  destruct (is_flying self); settle; rewrite ?Hlink; settle;
    rewrite ?filter_app; cbn [filter is_link]; rewrite ?app_nil_r;
    repeat split; auto.
Qed.

(** X19. In simulation mode [land()] and [return_to_home()] answer True
    in every status, also for a controller that never connected: they set
    LANDING and RETURNING, start one timer of 5 and of 10 seconds, and
    send nothing to a vehicle.  When the timer's callback has run the
    status is CONNECTED. *)
Theorem simulated_timers_connect (self : DroneController) :
  simulation_mode self = true ->
  (fst (land self) = Ok true
   /\ status (snd (land self)) = LANDING
   /\ events (snd (land self))
      = events self ++ [Log INFO "SIMULATION: Landing drone"; Timer 5]
   /\ status (snd (_simulated_landing_complete (snd (land self))))
      = CONNECTED)
  /\ (fst (return_to_home self) = Ok true
      /\ status (snd (return_to_home self)) = RETURNING
      /\ events (snd (return_to_home self))
         = events self
           ++ [Enter m_return_to_home;
               Log INFO "SIMULATION: Returning to home location"; Timer 10]
      /\ status (snd (_simulated_landing_complete
                        (snd (return_to_home self)))) = CONNECTED).
Proof.
  intros Hsim. unfold_run. rewrite Hsim. settle.
  rewrite <- !app_assoc. repeat split.
Qed.


(** X21. A [connect()] that reaches the vehicle records its position
    as home, attaches it, sets [running], starts the monitoring thread and
    ends CONNECTED. *)
Theorem connect_starts_monitoring (c : Controller) (v : Vehicle)
    (here : R * R * R) :
  simulation_mode (core c) = false ->
  status (core c) = DISCONNECTED ->
  location v = inr here ->
  refuses v (SetAirspeed (default_airspeed c)) = None ->
  let after := snd (connect (inr v) c) in
  fst (connect (inr v) c) = Ok true
  /\ status (core after) = CONNECTED
  /\ vehicle (core after) = Some v
  /\ running (core after) = true
  /\ monitoring_thread after = true
  /\ home_location after = Some here.
Proof.
  intros Hsim Hs Hloc Hlink. cbv zeta. unfold_run. rewrite Hsim, Hs. settle.
  rewrite Hloc. settle. rewrite Hlink. settle. repeat split.
Qed.

(** X22. A [connect()] that reaches the vehicle but fails to read its
    position or to set the airspeed answers False with status ERROR, the
    vehicle attached and no monitor started. *)
Theorem connect_half_done (c : Controller) (v : Vehicle) :
  simulation_mode (core c) = false ->
  status (core c) = DISCONNECTED ->
  (exists e, location v = inl e)
  \/ (exists e, refuses v (SetAirspeed (default_airspeed c)) = Some e) ->
  let after := snd (connect (inr v) c) in
  fst (connect (inr v) c) = Ok false
  /\ status (core after) = ERROR
  /\ vehicle (core after) = Some v
  /\ running (core after) = running (core c)
  /\ monitoring_thread after = monitoring_thread c.
Proof.
  intros Hsim Hs Hfail. cbv zeta. unfold_run. rewrite Hsim, Hs. settle.
  destruct Hfail as [[e He] | [e He]].
  - rewrite He. settle. repeat split.
  - destruct (location v) as [e' | here]; settle; [repeat split|].
    rewrite He. settle. repeat split.
Qed.

(** In simulation mode [connect()] sets CONNECTED and the fixed home
    position, and neither attaches a vehicle nor starts the monitor. *)
Lemma connect_simulated (c : Controller) (dial : exn + Vehicle) :
  simulation_mode (core c) = true ->
  status (core c) = DISCONNECTED ->
  let after := snd (connect dial c) in
  fst (connect dial c) = Ok true
  /\ status (core after) = CONNECTED
  /\ vehicle (core after) = vehicle (core c)
  /\ running (core after) = running (core c)
  /\ monitoring_thread after = monitoring_thread c
  /\ home_location after = Some (37.7749, -122.4194, 0).
Proof.
  intros Hsim Hs. cbv zeta. unfold_run. rewrite Hsim, Hs. settle.
  repeat split.
Qed.

(** X23. [disconnect()] clears [running], closes and detaches the
    vehicle when there is one and sets DISCONNECTED; the current mission
    and waypoint index are left as they were. *)
Theorem disconnect_keeps_mission (c : Controller) :
  status (core c) <> DISCONNECTED ->
  let after := snd (disconnect None c) in
  fst (disconnect None c) = Ok tt
  /\ status (core after) = DISCONNECTED
  /\ vehicle (core after) = None
  /\ running (core after) = false
  /\ closes after
     = match vehicle (core c) with
       | Some _ => S (closes c)
       | None => closes c
       end
  /\ current_mission (core after) = current_mission (core c)
  /\ current_waypoint_index (core after) = current_waypoint_index (core c).
Proof.
  intros Hs. cbv zeta. unfold_run.
  apply status_eqb_neq in Hs. rewrite Hs.
  destruct (vehicle (core c)) eqn:Hv; settle; repeat split; auto.
Qed.

(** X24. When [vehicle.close()] raises, the exception leaves
    [disconnect()]: [running] is already cleared, the vehicle still
    attached and the status unchanged. *)
Theorem disconnect_interrupted (c : Controller) (v : Vehicle) (e : exn) :
  status (core c) <> DISCONNECTED ->
  vehicle (core c) = Some v ->
  let after := snd (disconnect (Some e) c) in
  fst (disconnect (Some e) c) = Raise e
  /\ status (core after) = status (core c)
  /\ vehicle (core after) = Some v
  /\ running (core after) = false.
Proof.
  intros Hs Hv. cbv zeta. unfold_run.
  apply status_eqb_neq in Hs. rewrite Hs, Hv. settle.
  apply status_eqb_neq in Hs. repeat split; auto.
Qed.

End Facts.
End LifecycleFacts.

Module MissionFacts.
Import Drone DroneFacts Lifecycle Statements.
Local Open Scope string_scope.
Local Open Scope list_scope.

Section Facts.
Context {K : Planar}.

Ltac settle :=
  cbn [simulation_mode geofence_manager max_altitude return_airspeed status
       critical_battery_level low_battery_level running current_mission
       current_waypoint_index vehicle events latitude longitude
       with_events with_status with_waypoint with_vehicle with_running
       with_mission with_core core default_altitude default_airspeed
       home_location monitoring_thread mission_ops closes after_ops
       fst snd negb andb orb status_eqb].

Ltac unfold_run :=
  unfold load_mission, add_waypoint,
    lift, bindF, retF, getF, try_exceptF, mission_op, set_mission,
    log, link, read, try_except, bind, emit, get, set_status, set_waypoint,
    ret, raise;
  settle.

Lemma after_ops_nothing (c : Controller) : after_ops c [] [] = c.
Proof.
  unfold after_ops. rewrite !app_nil_r. destruct c as [[] ? ? ? ? ? ?].
  reflexivity.
Qed.

Lemma after_ops_twice (c : Controller) (l1 l2 : list Event)
    (o1 o2 : list MissionOp) :
  after_ops (after_ops c l1 o1) l2 o2 = after_ops c (l1 ++ l2) (o1 ++ o2).
Proof. unfold after_ops. settle. rewrite !app_assoc. reflexivity. Qed.

Lemma corrected_after_ops (c : Controller) (logs : list Event)
    (ops : list MissionOp) (w : Waypoint) :
  corrected (after_ops c logs ops) w = corrected c w.
Proof. reflexivity. Qed.

Lemma add_waypoint_ok (refused : MissionOp -> option exn) (w : Waypoint)
    (c : Controller) :
  (forall lat lon alt, refused (Add lat lon alt) = None) ->
  exists logs,
    add_waypoint refused w c = (Ok tt, after_ops c logs [corrected c w])
    /\ filter is_link logs = [].
Proof.
  intros Hok. unfold_run. unfold corrected, safe_target.
  destruct (geofence_manager (core c)) as [gm|].
  - destruct (is_point_inside gm (w_latitude w) (w_longitude w) None);
      settle; rewrite Hok.
    + exists []. unfold after_ops. rewrite app_nil_r.
      destruct c as [[] ? ? ? ? ? ?]. split; reflexivity.
    + eexists [_]. unfold after_ops. settle. split; reflexivity.
  - settle. rewrite Hok. exists []. unfold after_ops. rewrite app_nil_r.
    destruct c as [[] ? ? ? ? ? ?]. split; reflexivity.
Qed.

Lemma add_waypoints_ok (refused : MissionOp -> option exn)
    (waypoints : list Waypoint) (c : Controller) :
  (forall lat lon alt, refused (Add lat lon alt) = None) ->
  exists logs,
    add_waypoints refused waypoints c
    = (Ok tt, after_ops c logs (map (corrected c) waypoints))
    /\ filter is_link logs = [].
Proof.
  intros Hok. revert c.
  induction waypoints as [|w rest IH]; intros c; simpl.
  - exists []. unfold retF. rewrite after_ops_nothing. split; reflexivity.
  - unfold bindF.
    destruct (add_waypoint_ok refused w c Hok) as (l1 & -> & Hl1).
    destruct (IH (after_ops c l1 [corrected c w])) as (l2 & -> & Hl2).
    exists (l1 ++ l2). rewrite after_ops_twice. split.
    + f_equal.
    + rewrite filter_app, Hl1, Hl2. reflexivity.
Qed.

(** X25. With a real vehicle and a link that accepts everything,
    [load_mission] clears the stored commands, adds one command per
    waypoint in order (each at its geofence-corrected coordinates, with the
    default altitude where none is given), uploads, switches to AUTO, and
    records the mission with waypoint index 0; the status is not looked at
    and not changed. *)
Theorem load_mission_uploads (c : Controller)
    (missions : string -> option MissionData)
    (refused : MissionOp -> option exn) (id : string)
    (waypoints : list Waypoint) (v : Vehicle) :
  simulation_mode (core c) = false ->
  vehicle (core c) = Some v ->
  mission_found (missions id) = Some waypoints ->
  (forall op, refused op = None) ->
  refuses v (SetMode "AUTO") = None ->
  let after := snd (load_mission missions refused id c) in
  fst (load_mission missions refused id c) = Ok true
  /\ mission_ops after
     = mission_ops c ++ Clear :: map (corrected c) waypoints ++ [Upload]
  /\ filter is_link (events (core after))
     = filter is_link (events (core c)) ++ [Link (SetMode "AUTO")]
  /\ believes (Some id) 0 (status (core c)) after.
Proof.
  intros Hsim Hv Hfound Hok Hauto. cbv zeta.
  assert (Hrun : exists after,
             load_mission missions refused id c = (Ok true, after)
             /\ mission_ops after
                = mission_ops c ++ Clear :: map (corrected c) waypoints
                  ++ [Upload]
             /\ filter is_link (events (core after))
                = filter is_link (events (core c)) ++ [Link (SetMode "AUTO")]
             /\ believes (Some id) 0 (status (core c)) after).
  { unfold load_mission, bindF at 1, getF. rewrite Hsim, Hv, Hfound.
    unfold try_exceptF, bindF at 1, mission_op at 1. rewrite Hok.
    unfold bindF at 1.
    match goal with
    | |- context [add_waypoints refused waypoints ?c1] =>
        destruct (add_waypoints_ok refused waypoints c1
                    (fun lat lon alt => Hok (Add lat lon alt)))
          as (logs & -> & Hl)
    end.
    unfold_run. rewrite Hok. settle. rewrite Hauto. settle.
    eexists. split; [reflexivity|].
    unfold believes. settle. repeat split.
    - rewrite <- !app_assoc. reflexivity.
    - rewrite !filter_app, Hl. cbn [filter is_link]. rewrite !app_nil_r.
      reflexivity. }
  destruct Hrun as (after & -> & H). split; [reflexivity | exact H].
Qed.

(** X28. When the upload is refused [load_mission] answers False after
    the stored commands were cleared and the new ones added; AUTO is not
    set and the current mission still names the old one. *)
Theorem load_mission_upload_refused (c : Controller)
    (missions : string -> option MissionData)
    (refused : MissionOp -> option exn) (id : string)
    (waypoints : list Waypoint) (v : Vehicle) (e : exn) :
  simulation_mode (core c) = false ->
  vehicle (core c) = Some v ->
  mission_found (missions id) = Some waypoints ->
  refused Clear = None ->
  (forall lat lon alt, refused (Add lat lon alt) = None) ->
  refused Upload = Some e ->
  let after := snd (load_mission missions refused id c) in
  fst (load_mission missions refused id c) = Ok false
  /\ mission_ops after
     = mission_ops c ++ Clear :: map (corrected c) waypoints ++ [Upload]
  /\ filter is_link (events (core after)) = filter is_link (events (core c))
  /\ current_mission (core after) = current_mission (core c).
Proof.
  intros Hsim Hv Hfound Hclear Hadd Hupload. cbv zeta.
  assert (Hrun : exists after,
             load_mission missions refused id c = (Ok false, after)
             /\ mission_ops after
                = mission_ops c ++ Clear :: map (corrected c) waypoints
                  ++ [Upload]
             /\ filter is_link (events (core after))
                = filter is_link (events (core c))
             /\ current_mission (core after) = current_mission (core c)).
  { unfold load_mission, bindF at 1, getF. rewrite Hsim, Hv, Hfound.
    unfold try_exceptF, bindF at 1, mission_op at 1. rewrite Hclear.
    unfold bindF at 1.
    match goal with
    | |- context [add_waypoints refused waypoints ?c1] =>
        destruct (add_waypoints_ok refused waypoints c1 Hadd)
          as (logs & -> & Hl)
    end.
    unfold_run. rewrite Hupload. settle.
    eexists. split; [reflexivity|]. settle. repeat split.
    - rewrite <- !app_assoc. reflexivity.
    - rewrite !filter_app, Hl. cbn [filter is_link]. rewrite !app_nil_r.
      reflexivity. }
  destruct Hrun as (after & -> & H). split; [reflexivity | exact H].
Qed.

(** *** What a failed load leaves behind *)

Lemma keepsF_ret {A} (Q : Controller -> Prop) (a : A) : keepsF Q (retF a).
Proof. intros c H. exact H. Qed.

Lemma keepsF_bind {A B} (Q : Controller -> Prop) (m : F A) (k : A -> F B) :
  keepsF Q m -> (forall a, keepsF Q (k a)) -> keepsF Q (bindF m k).
Proof.
  intros Hm Hk c H. unfold bindF. specialize (Hm c H).
  destruct (m c) as [[a | e] c']; simpl in *.
  - apply Hk. exact Hm.
  - exact Hm.
Qed.

Lemma keepsF_get {A} (Q : Controller -> Prop) (k : Controller -> F A) :
  (forall c, keepsF Q (k c)) -> keepsF Q (bindF getF k).
Proof. intros Hk c H. unfold bindF, getF. apply Hk. exact H. Qed.

Section Believes.

Variables (id : option string) (index : Z) (st : DroneStatus).

Lemma believes_emit (e : Event) : keepsF (believes id index st) (lift (emit e)).
Proof. intros c H. exact H. Qed.

Lemma believes_link (v : Vehicle) (cmd : LinkCommand) :
  keepsF (believes id index st) (lift (link v cmd)).
Proof.
  intros c H. unfold lift, link, bind, emit, ret, raise.
  destruct (refuses v cmd); exact H.
Qed.

Lemma believes_mission_op (refused : MissionOp -> option exn) (op : MissionOp) :
  keepsF (believes id index st) (mission_op refused op).
Proof. intros c H. exact H. Qed.

Lemma believes_add_waypoint (refused : MissionOp -> option exn) (w : Waypoint) :
  keepsF (believes id index st) (add_waypoint refused w).
Proof.
  unfold add_waypoint. apply keepsF_get. intros c.
  apply keepsF_bind; [|intros t; apply believes_mission_op].
  intros c' H. unfold lift.
  destruct (geofence_manager (core c)) as [gm|]; [|exact H].
  destruct (negb (is_point_inside gm _ _ None)); exact H.
Qed.

Lemma believes_add_waypoints (refused : MissionOp -> option exn)
    (waypoints : list Waypoint) :
  keepsF (believes id index st) (add_waypoints refused waypoints).
Proof.
  induction waypoints as [|w rest IH]; simpl.
  - apply keepsF_ret.
  - apply keepsF_bind; [apply believes_add_waypoint | intros _; exact IH].
Qed.

End Believes.

Lemma falls_back_bind {A} (Q : Controller -> Prop) (m : F A)
    (k : A -> F bool) :
  keepsF Q m -> (forall a, falls_back Q (k a)) -> falls_back Q (bindF m k).
Proof.
  intros Hm Hk c H. unfold bindF. specialize (Hm c H).
  destruct (m c) as [[a | e] c']; simpl in *.
  - apply Hk. exact Hm.
  - exact Hm.
Qed.

Lemma falls_back_keeps (Q : Controller -> Prop) (m : F bool) :
  keepsF Q m -> falls_back Q m.
Proof.
  intros Hm c H. specialize (Hm c H).
  destruct (m c) as [[[|] | e] c']; simpl in *; auto.
Qed.

Lemma falls_back_try (Q : Controller -> Prop) (body : F bool)
    (handler : exn -> F bool) :
  falls_back Q body -> (forall e, keepsF Q (handler e)) ->
  falls_back Q (try_exceptF body handler).
Proof.
  intros Hb Hh c H. unfold try_exceptF. specialize (Hb c H).
  destruct (body c) as [[[|] | e] c']; auto.
  apply falls_back_keeps; auto.
Qed.

Lemma falls_back_load_mission (missions : string -> option MissionData)
    (refused : MissionOp -> option exn) (mission_id : string)
    (id : option string) (index : Z) (st : DroneStatus) :
  falls_back (believes id index st) (load_mission missions refused mission_id).
Proof.
  unfold load_mission.
  intros c H. unfold bindF at 1, getF.
  assert (Hlog : forall text,
             falls_back (believes id index st)
               (bindF (lift (log LOG_ERROR text)) (fun _ => retF false))).
  { intros text. apply falls_back_keeps. apply keepsF_bind.
    - apply believes_emit.
    - intros _. apply keepsF_ret. }
  destruct (simulation_mode (core c)).
  { unfold bindF, lift, log, emit, retF. exact I. }
  destruct (vehicle (core c)) as [v|]; [|apply Hlog; exact H].
  destruct (mission_found (missions mission_id)) as [waypoints|];
    [|apply Hlog; exact H].
  revert c H. apply falls_back_try.
  - apply falls_back_bind; [apply believes_mission_op | intros _].
    apply falls_back_bind; [apply believes_add_waypoints | intros _].
    apply falls_back_bind; [apply believes_mission_op | intros _].
    apply falls_back_bind; [apply believes_emit | intros _].
    apply falls_back_bind; [apply believes_link | intros _].
    intros c H. unfold bindF, lift, set_mission, set_waypoint, retF.
    exact I.
  - intros e. apply keepsF_bind; [apply believes_emit|].
    intros _. apply keepsF_ret.
Qed.

(** X26. A [load_mission] that answers False leaves the current
    mission, the waypoint index and the status as they were. *)
Theorem load_mission_failure_keeps_mission (c : Controller)
    (missions : string -> option MissionData)
    (refused : MissionOp -> option exn) (id : string) :
  fst (load_mission missions refused id c) = Ok false ->
  believes (current_mission (core c)) (current_waypoint_index (core c))
    (status (core c)) (snd (load_mission missions refused id c)).
Proof.
  intros Hfalse.
  pose proof (falls_back_load_mission missions refused id
                (current_mission (core c)) (current_waypoint_index (core c))
                (status (core c)) c) as H.
  destruct (load_mission missions refused id c) as [[[|] | e] after];
    try discriminate.
  apply H. repeat split.
Qed.

(** X27. For an id that is not configured, or configured as an empty
    dict, [load_mission] with a real vehicle answers False without
    touching the vehicle's commands or mode. *)
Theorem load_mission_unknown (c : Controller)
    (missions : string -> option MissionData)
    (refused : MissionOp -> option exn) (id : string) :
  simulation_mode (core c) = false ->
  mission_found (missions id) = None ->
  fst (load_mission missions refused id c) = Ok false
  /\ mission_ops (snd (load_mission missions refused id c)) = mission_ops c
  /\ filter is_link (events (core (snd (load_mission missions refused id c))))
     = filter is_link (events (core c)).
Proof.
  intros Hsim Hnone. unfold_run. rewrite Hsim, Hnone.
  destruct (vehicle (core c)); settle; rewrite filter_app; simpl;
    rewrite app_nil_r; repeat split.
Qed.

End Facts.
End MissionFacts.

Module CoordinatorFacts.
Import Drone DroneFacts Coordinator Statements.
Local Open Scope string_scope.
Local Open Scope list_scope.
Local Open Scope drone_scope.

Section Facts.
Context {K : Planar}.

Ltac settle :=
  cbn [simulation_mode geofence_manager max_altitude return_airspeed status
       critical_battery_level low_battery_level running current_mission
       current_waypoint_index vehicle events latitude longitude
       with_events with_status with_waypoint with_vehicle
       fst snd negb andb orb status_eqb].

Ltac unfold_run :=
  unfold move_to, move_to_nowhere, move_to_coordinates, checked_target,
    safe_target, log, link, read, try_except, bind, emit, get, set_status,
    ret, raise;
  settle.

Ltac cases :=
  repeat (settle;
          match goal with
          | |- context [match vehicle ?s with _ => _ end] =>
              destruct (vehicle s) eqn:?
          | |- context [match geofence_manager ?s with _ => _ end] =>
              destruct (geofence_manager s) eqn:?
          | |- context [if simulation_mode ?s then _ else _] =>
              destruct (simulation_mode s) eqn:?
          | |- context [status_eqb (status ?s) FLYING] =>
              destruct (status_eqb (status s) FLYING) eqn:?
          | |- context [match latitude ?l with _ => _ end] =>
              destruct (latitude l) eqn:?
          | |- context [match longitude ?l with _ => _ end] =>
              destruct (longitude l) eqn:?
          | |- context [is_point_inside ?g ?a ?b None] =>
              destruct (is_point_inside g a b None) eqn:?
          | |- context [Rltb ?a ?b] => destruct (Rltb a b) eqn:?
          | |- context [refuses ?v ?c] => destruct (refuses v c) eqn:?
          end).

(** What a call with an altitude does: it is entered once and, given a
    location dict, it returns. *)
Lemma move_to_run (location_ : option Location) (altitude : R)
    (self : DroneController) :
  calls m_move_to_coordinates (events (snd (move_to location_ altitude self)))
  = S (calls m_move_to_coordinates (events self))
  /\ (location_ <> None ->
      exists b, fst (move_to location_ altitude self) = Ok b).
Proof.
  destruct location_ as [l|]; unfold_run.
  - cases; settle;
      (split; [repeat rewrite calls_snoc; cbn [is_call]; lia|]);
      intros _; eexists; reflexivity.
  - cases; settle;
      (split; [repeat rewrite calls_snoc; cbn [is_call]; lia|]);
      intros Hne; contradiction.
Qed.

Lemma handle_emergency_unfold (emergency : EmergencyConfig) (event : Detection) :
  handle_emergency emergency event
  = match observation_altitude emergency (e_type event) with
    | Some altitude =>
        _ <- move_to (e_location event) altitude ;; ret tt
    | None => ret tt
    end.
Proof.
  unfold handle_emergency, observation_altitude.
  destruct (String.eqb (e_type event) "fire"); [reflexivity|].
  destruct (String.eqb (e_type event) "break_in"); [reflexivity|].
  destruct (String.eqb (e_type event) "suspicious"); [reflexivity|].
  destruct (String.eqb (e_type event) "threat"); reflexivity.
Qed.

(** X29. [handle_emergency] calls [move_to_coordinates] once for a
    fire, break_in, suspicious or threat event and does nothing at all
    for any other type; for an event that carries a location it
    returns. *)
Theorem handle_emergency_dispatch (emergency : EmergencyConfig)
    (event : Detection) (self : DroneController) :
  let out := handle_emergency emergency event self in
  calls m_move_to_coordinates (events (snd out))
  = (calls m_move_to_coordinates (events self)
     + match observation_altitude emergency (e_type event) with
       | Some _ => 1
       | None => 0
       end)%nat
  /\ (observation_altitude emergency (e_type event) = None ->
      out = (Ok tt, self))
  /\ (e_location event <> None -> fst out = Ok tt).
Proof.
  cbv zeta. rewrite handle_emergency_unfold.
  destruct (observation_altitude emergency (e_type event)) as [altitude|].
  - destruct (move_to_run (e_location event) altitude self) as [Hcalls Hret].
    unfold bind, ret.
    destruct (move_to (e_location event) altitude self) as [[b | e] after];
      cbn [fst snd] in *; (split; [lia|]); (split; [discriminate|]);
      intros Hloc; try reflexivity.
    destruct (Hret Hloc) as [b Hb]. discriminate.
  - unfold ret. cbn [fst snd]. repeat split. lia.
Qed.

(** X30. For a known event with coordinates, a real vehicle in flight
    and a link that accepts the writes, [handle_emergency] sends exactly
    one goto to the geofence-checked location at the altitude configured
    for the event type, cut to [max_altitude]. *)
Theorem handle_emergency_goto (emergency : EmergencyConfig)
    (event : Detection) (self : DroneController) (loc : Location)
    (lat lon altitude : R) (v : Vehicle) :
  simulation_mode self = false ->
  vehicle self = Some v ->
  status self = FLYING ->
  (forall c, refuses v c = None) ->
  e_location event = Some loc ->
  latitude loc = Some lat ->
  longitude loc = Some lon ->
  observation_altitude emergency (e_type event) = Some altitude ->
  let out := handle_emergency emergency event self in
  let target := safe_target self lat lon in
  fst out = Ok tt
  /\ status (snd out) = FLYING
  /\ filter is_link (events (snd out))
     = filter is_link (events self)
       ++ [Link (SimpleGoto (fst target) (snd target)
                   (if Rltb (max_altitude self) altitude
                    then max_altitude self else altitude))].
Proof.
  intros Hsim Hv Hfly Hlink Hloc Hlat Hlon Halt. cbv zeta.
  rewrite handle_emergency_unfold, Halt, Hloc. unfold move_to, bind.
  destruct (CommandFacts.move_while_flying self loc lat lon altitude v
              Hsim Hv Hfly Hlat Hlon Hlink) as (after & -> & Hst & Hev).
  unfold ret. cbn [fst snd]. auto.
Qed.

End Facts.
End CoordinatorFacts.

(** ** The further properties on explicit inputs *)

Module MoreRuns.
Import Drone GeofenceAdmin Lifecycle Coordinator Statements Inputs MoreInputs.
Import IdealModel.
Local Open Scope string_scope.
Local Open Scope list_scope.

(** X2 on an explicit input. *)
Lemma remove_boundary_shrinks_witness :
  is_point_inside (snd (remove_boundary two_pads "Copy")) 1 1 None = true
  /\ is_point_inside two_pads 1 1 None = true.
Proof.
  assert (H : is_point_inside (snd (remove_boundary two_pads "Copy")) 1 1 None
              = true).
  { cbn. rewrite Runs.pad_contains_center. reflexivity. }
  split; [exact H|].
  exact (AdminFacts.remove_boundary_shrinks two_pads "Copy" 1 1 None H).
Defined.

(** X3 on an explicit input. *)
Lemma _add_boundary_appends_witness :
  _add_boundary bare zone = inr zoned
  /\ exists new,
       boundaries zoned = boundaries bare ++ new /\ List.length new = 1%nat.
Proof.
  split; [reflexivity|].
  exact (proj1 (AdminFacts._add_boundary_appends bare zoned zone eq_refl)).
Defined.

(** X4 on an explicit input. *)
Lemma add_temporary_boundary_ignored_witness :
  accepted sliver = false
  /\ add_temporary_boundary bare sliver = (true, bare).
Proof.
  split; [reflexivity|].
  exact (AdminFacts.add_temporary_boundary_ignored bare sliver eq_refl).
Defined.

Lemma nothing_named_in_bare (name : string) :
  forall b, In b (boundaries bare) -> b_name b <> name.
Proof. intros b []. Qed.

Lemma zone_is_a_name : "Zone" <> "".
Proof. discriminate. Qed.

(** X5 on an explicit input. *)
Lemma add_then_remove_witness :
  (accepted zone = true
   /\ d_name zone = Some "Zone"
   /\ _add_boundary bare zone = inr zoned)
  /\ remove_boundary zoned "Zone" = (true, bare).
Proof.
  split; [repeat split|].
  exact (AdminFacts.add_then_remove bare zoned zone "Zone" eq_refl eq_refl
           zone_is_a_name (nothing_named_in_bare "Zone") eq_refl).
Defined.

(** X6 on an explicit input. *)
Lemma names_may_repeat_witness :
  (_add_boundary bare zone = inr zoned
   /\ _add_boundary zoned zone = inr zoned_twice)
  /\ fst (remove_boundary zoned_twice "Zone") = true
  /\ named "Zone" (boundaries (snd (remove_boundary zoned_twice "Zone"))).
Proof.
  split; [repeat split|].
  exact (AdminFacts.names_may_repeat bare zoned zoned_twice zone "Zone"
           eq_refl eq_refl zone_is_a_name eq_refl eq_refl).
Defined.

Lemma san_francisco_is_given : Some san_francisco <> None.
Proof. discriminate. Qed.

(** X7 on an explicit input. *)
Lemma default_center_gives_a_boundary_witness :
  __init__ (config_with None None (Some san_francisco)) = inr default_only
  /\ boundaries default_only <> [].
Proof.
  split; [reflexivity|].
  exact (AdminFacts.default_center_gives_a_boundary
           (config_with None None (Some san_francisco)) default_only
           eq_refl san_francisco_is_given).
Defined.

(** X8 on an explicit input. *)
Lemma boundary_file_never_fails_witness :
  c_boundaries (config_with None (Some (JsonList [folded; zone])) None) = None
  /\ exists m,
       __init__ (config_with None (Some (JsonList [folded; zone])) None)
       = inr m.
Proof.
  split; [reflexivity|].
  exact (AdminFacts.boundary_file_never_fails
           (config_with None (Some (JsonList [folded; zone])) None) eq_refl).
Defined.

Lemma folded_is_rejected :
  _add_boundary zoned folded
  = inl "A linearring requires at least 4 coordinates.".
Proof.
  unfold _add_boundary, folded, polygon_points, polygon_of. simpl.
  unfold IdealModel.shape_polygon, point_eqb, px, py. simpl.
  rcompare. simpl. rcompare. reflexivity.
Qed.

(** X9 on an explicit input. *)
Lemma boundary_file_stops_at_rejected_witness :
  (add_each (blank (config_with None None None)) [zone] = (None, zoned)
   /\ _add_boundary zoned folded
      = inl "A linearring requires at least 4 coordinates.")
  /\ __init__ (with_file (config_with None None None)
                 (Some (JsonList ([zone] ++ folded :: [zone]))))
     = __init__ (with_file (config_with None None None)
                   (Some (JsonList [zone]))).
Proof.
  split; [split; [reflexivity | exact folded_is_rejected]|].
  exact (AdminFacts.boundary_file_stops_at_rejected
           (config_with None None None) [zone] [zone] folded _ zoned
           eq_refl eq_refl folded_is_rejected).
Defined.

Lemma astray_is_outside : ~ inside_some (boundaries pad_fence) (3, 1).
Proof.
  apply GeofenceFacts.contained_in_some_false. cbn.
  rewrite Runs.pad_excludes_outside. reflexivity.
Qed.

Lemma pad_fence_is_fenced : boundaries pad_fence <> [].
Proof. discriminate. Qed.

Lemma pad_fence_is_polygonal :
  forall b, In b (boundaries pad_fence) -> b_type b = polygon.
Proof. intros b [<- | []]. reflexivity. Qed.

(** X11 on an explicit input. *)
Lemma breach_distance_to_safe_point_witness :
  ~ inside_some (boundaries pad_fence) (3, 1)
  /\ calculate_breach_distance pad_fence 1 3
     = Fin (distance (3, 1)
              (snd (get_nearest_safe_point pad_fence 1 3),
               fst (get_nearest_safe_point pad_fence 1 3)) * 111111).
Proof.
  split; [exact astray_is_outside|].
  exact (BreachFacts.breach_distance_to_safe_point pad_fence 1 3
           astray_is_outside pad_fence_is_fenced pad_fence_is_polygonal).
Defined.

Lemma flying_unfenced_has_vehicle : vehicle flying_unfenced <> None.
Proof. discriminate. Qed.

(** X12 on an explicit input. *)
Lemma monitor_never_stops_by_itself_witness :
  running flying_unfenced = true
  /\ fst (monitor_loop [silent; silent] flying_unfenced) = Ok false.
Proof.
  split; [reflexivity|].
  exact (proj1 (MonitorFacts.monitor_never_stops_by_itself [silent; silent]
                  flying_unfenced eq_refl flying_unfenced_has_vehicle)).
Defined.

(** X14 on an explicit input. *)
Lemma monitor_stops_when_told_witness :
  vehicle detached = None
  /\ fst (monitor_loop [healthy "GUIDED" 80; silent] detached) = Ok true.
Proof.
  split; [reflexivity|].
  exact (proj1 (MonitorFacts.monitor_stops_when_told (healthy "GUIDED" 80)
                  [silent] detached (or_intror eq_refl))).
Defined.

(** X15 on an explicit input. *)
Lemma move_sends_clamped_altitude_witness :
  (simulation_mode flying = false /\ status flying = FLYING)
  /\ fst (move_to_coordinates somewhere (Some 100) flying) = Ok true.
Proof.
  split; [split; reflexivity|].
  exact (proj1 (CommandFacts.move_sends_clamped_altitude flying somewhere
                  1 3 100 (healthy "GUIDED" 80)
                  eq_refl eq_refl eq_refl eq_refl eq_refl
                  (fun _ => eq_refl))).
Defined.

Lemma astray_fails_containment : is_point_inside pad_fence 1 3 None = false.
Proof. cbn. rewrite Runs.pad_excludes_outside. reflexivity. Qed.

(** X16 on an explicit input. *)
Lemma breach_is_corrected_witness :
  (status flying_astray = FLYING
   /\ is_point_inside pad_fence 1 3 None = false)
  /\ fst (check_geofence astray flying_astray) = Ok tt.
Proof.
  split; [split; [reflexivity | exact astray_fails_containment]|].
  exact (proj1 (CommandFacts.breach_is_corrected flying_astray astray pad_fence
                  1 3 10 eq_refl eq_refl eq_refl eq_refl eq_refl
                  astray_fails_containment (fun _ => eq_refl))).
Defined.

(** X17 on an explicit input. *)
Lemma landed_vehicle_is_connected_witness :
  (mode_name landed = inr "LAND" /\ armed landed = inr false)
  /\ status (snd (monitor_tick landed flying_unfenced)) = CONNECTED.
Proof.
  split; [split; reflexivity|].
  exact (CommandFacts.landed_vehicle_is_connected flying_unfenced landed
           eq_refl eq_refl eq_refl).
Defined.

(** X18 on an explicit input. *)
Lemma land_iff_flying_witness :
  simulation_mode flying = false
  /\ fst (land flying) = Ok true.
Proof.
  split; [reflexivity|].
  exact (proj1 (LifecycleFacts.land_iff_flying flying (healthy "GUIDED" 80)
                  eq_refl eq_refl eq_refl)).
Defined.

(** X19 on an explicit input. *)
Lemma simulated_timers_connect_witness :
  (simulation_mode simulated_disconnected = true
   /\ status simulated_disconnected = DISCONNECTED
   /\ vehicle simulated_disconnected = None)
  /\ fst (land simulated_disconnected) = Ok true
  /\ status (snd (land simulated_disconnected)) = LANDING
  /\ events (snd (land simulated_disconnected))
     = events simulated_disconnected
       ++ [Log INFO "SIMULATION: Landing drone"; Timer 5]
  /\ status (snd (_simulated_landing_complete
                    (snd (land simulated_disconnected)))) = CONNECTED.
Proof.
  split; [repeat split|].
  exact (proj1 (LifecycleFacts.simulated_timers_connect
                  simulated_disconnected eq_refl)).
Defined.


(** X21 on an explicit input. *)
Lemma connect_starts_monitoring_witness :
  status (core fresh) = DISCONNECTED
  /\ fst (connect (inr (healthy "GUIDED" 80)) fresh) = Ok true.
Proof.
  split; [reflexivity|].
  exact (proj1 (LifecycleFacts.connect_starts_monitoring fresh
                  (healthy "GUIDED" 80) (1, 1, 10)
                  eq_refl eq_refl eq_refl eq_refl)).
Defined.

(** X22 on an explicit input. *)
Lemma connect_half_done_witness :
  location mute = inl "no fix"
  /\ fst (connect (inr mute) fresh) = Ok false.
Proof.
  split; [reflexivity|].
  exact (proj1 (LifecycleFacts.connect_half_done fresh mute eq_refl eq_refl
                  (or_introl (ex_intro _ "no fix" eq_refl)))).
Defined.

Lemma flying_is_connected : status (core (whole flying)) <> DISCONNECTED.
Proof. discriminate. Qed.

(** X23 on an explicit input. *)
Lemma disconnect_keeps_mission_witness :
  status (core (whole flying)) <> DISCONNECTED
  /\ fst (disconnect None (whole flying)) = Ok tt.
Proof.
  split; [exact flying_is_connected|].
  exact (proj1 (LifecycleFacts.disconnect_keeps_mission (whole flying)
                  flying_is_connected)).
Defined.

(** X24 on an explicit input. *)
Lemma disconnect_interrupted_witness :
  vehicle (core (whole flying)) = Some (healthy "GUIDED" 80)
  /\ fst (disconnect (Some "link busy") (whole flying)) = Raise "link busy".
Proof.
  split; [reflexivity|].
  exact (proj1 (LifecycleFacts.disconnect_interrupted (whole flying)
                  (healthy "GUIDED" 80) "link busy"
                  flying_is_connected eq_refl)).
Defined.

(** X25 on an explicit input. *)
Lemma load_mission_uploads_witness :
  mission_found (missions "patrol") = Some patrol
  /\ fst (load_mission missions accepts_all "patrol" (whole flying_unfenced))
     = Ok true.
Proof.
  split; [reflexivity|].
  exact (proj1 (MissionFacts.load_mission_uploads (whole flying_unfenced)
                  missions accepts_all "patrol" patrol (healthy "GUIDED" 80)
                  eq_refl eq_refl eq_refl (fun _ => eq_refl) eq_refl)).
Defined.

(** X26 on an explicit input. *)
Lemma load_mission_failure_keeps_mission_witness :
  fst (load_mission missions refuses_upload "patrol" (whole flying_unfenced))
  = Ok false
  /\ believes None 0 FLYING
       (snd (load_mission missions refuses_upload "patrol"
               (whole flying_unfenced))).
Proof.
  split; [reflexivity|].
  exact (MissionFacts.load_mission_failure_keeps_mission
           (whole flying_unfenced) missions refuses_upload "patrol" eq_refl).
Defined.

(** X27 on an explicit input. *)
Lemma load_mission_unknown_witness :
  mission_found (missions "blank") = None
  /\ fst (load_mission missions accepts_all "blank" (whole flying_unfenced))
     = Ok false.
Proof.
  split; [reflexivity|].
  exact (proj1 (MissionFacts.load_mission_unknown (whole flying_unfenced)
                  missions accepts_all "blank" eq_refl eq_refl)).
Defined.

(** X28 on an explicit input. *)
Lemma load_mission_upload_refused_witness :
  refuses_upload Upload = Some "upload timed out"
  /\ fst (load_mission missions refuses_upload "patrol"
            (whole flying_unfenced)) = Ok false.
Proof.
  split; [reflexivity|].
  exact (proj1 (MissionFacts.load_mission_upload_refused
                  (whole flying_unfenced) missions refuses_upload "patrol"
                  patrol (healthy "GUIDED" 80) "upload timed out"
                  eq_refl eq_refl eq_refl eq_refl (fun _ _ _ => eq_refl)
                  eq_refl)).
Defined.

(** X30 on an explicit input. *)
Lemma handle_emergency_goto_witness :
  (status flying = FLYING
   /\ observation_altitude altitudes "fire" = Some 15)
  /\ fst (handle_emergency altitudes (fire_at (Some somewhere)) flying)
     = Ok tt.
Proof.
  split; [split; reflexivity|].
  exact (proj1 (CoordinatorFacts.handle_emergency_goto altitudes
                  (fire_at (Some somewhere)) flying somewhere 1 3 15
                  (healthy "GUIDED" 80)
                  eq_refl eq_refl eq_refl (fun _ => eq_refl)
                  eq_refl eq_refl eq_refl eq_refl)).
Defined.

End MoreRuns.
